(** * The smart-smoker consumer: [consumers/project_consumer_pinkston.py]

    A shallow embedding of the consumer's message handling
    ([process_message], [update_chart], the getters and the loop of [main])
    and the properties of its history lists and analytics counters.

    Modelling decisions, all taken from the source:
    - Python values are the values [json.loads] can build ([pyval]); Python
      integers are unbounded ([Z]) and Python floats are IEEE binary64, taken
      from the Standard Library's executable specification ([spec_float] at
      precision 53 and maximal exponent 1024).
    - The module-level variables are the fields of [state]; the body of
      [process_message] runs in a monad that threads them, collects what is
      logged, drawn and printed, and can raise.  A raised exception keeps the
      mutations made before it, as in Python.
    - What the program only calls is an input of the model: the decoder
      [json_loads], the clock [time.time] (a stream of readings, one per
      call), the outcome of the Matplotlib calls, and the values found in the
      process environment. *)

From Stdlib Require Import ZArith Lia Bool List Ascii String.
From Stdlib Require Import Floats.SpecFloat.
From stdpp Require Import base option list strings gmap.

Local Open Scope Z_scope.

(** ** Python values *)

Module Py.

(** Binary64, as [float] is in CPython. *)
Definition prec : Z := 53.
Definition emax : Z := 1024.
Abbreviation float := spec_float.

Definition fadd : float -> float -> float := SFadd prec emax.
Definition fsub : float -> float -> float := SFsub prec emax.
Definition fdiv : float -> float -> float := SFdiv prec emax.

(** The float nearest to an integer (ties to even), infinite when the integer
    is out of range. *)
Definition float_of_Z (n : Z) : float := binary_normalize prec emax n 0 false.

Definition fzero : float := S754_zero false.

(** The exceptions the handled code can raise; all of them derive from
    [Exception].  [ExternalError] stands for whatever a called library
    raises. *)
Inductive exn :=
| JSONDecodeError
| AttributeError
| TypeError
| OverflowError
| ValueError
| ZeroDivisionError
| ExternalError (origin : string).

Inductive res (A : Type) :=
| Ok (a : A)
| Raise (e : exn).
Arguments Ok {A} a.
Arguments Raise {A} e.

#[warnings="-register-all"]
Inductive pyval :=
| PyNone
| PyBool (b : bool)
| PyInt (n : Z)
| PyFloat (f : float)
| PyStr (s : string)
| PyList (l : list pyval)
| PyDict (d : gmap string pyval).

Definition is_None (v : pyval) : bool :=
  match v with PyNone => true | _ => false end.

(** [data.get(key)]: only a dict has [get]; a missing key gives [None]. *)
Definition get (data : pyval) (key : string) : res pyval :=
  match data with
  | PyDict d => Ok (default PyNone (d !! key))
  | _ => Raise AttributeError
  end.

(** *** Numbers by value

    CPython compares an [int] with a [float], and two floats, by their exact
    values; a NaN compares false with everything. *)
Inductive xnum :=
| XNaN
| XInf (negative : bool)
| XDyadic (m e : Z).   (* m * 2^e *)

Definition xnum_of_float (f : float) : xnum :=
  match f with
  | S754_zero _ => XDyadic 0 0
  | S754_infinity s => XInf s
  | S754_nan => XNaN
  | S754_finite s m e => XDyadic (cond_Zopp s (Z.pos m)) e
  end.

Definition dyadic_compare (m1 e1 m2 e2 : Z) : comparison :=
  let e := Z.min e1 e2 in
  (m1 * 2 ^ (e1 - e) ?= m2 * 2 ^ (e2 - e)).

Definition xnum_compare (a b : xnum) : option comparison :=
  match a, b with
  | XNaN, _ | _, XNaN => None
  | XInf s1, XInf s2 =>
      Some (match s1, s2 with
            | true, false => Lt
            | false, true => Gt
            | _, _ => Eq
            end)
  | XInf s, XDyadic _ _ => Some (if s then Lt else Gt)
  | XDyadic _ _, XInf s => Some (if s then Gt else Lt)
  | XDyadic m1 e1, XDyadic m2 e2 => Some (dyadic_compare m1 e1 m2 e2)
  end.

Definition xnum_ge (a b : xnum) : bool :=
  match xnum_compare a b with
  | Some Gt | Some Eq => true
  | _ => false
  end.

Definition xnum_le (a b : xnum) : bool :=
  match xnum_compare a b with
  | Some Lt | Some Eq => true
  | _ => false
  end.

(** The numeric value of an operand of [>=], when it has one: [bool] is a
    subclass of [int]. *)
Definition numeric_value (v : pyval) : option xnum :=
  match v with
  | PyBool b => Some (XDyadic (if b then 1 else 0) 0)
  | PyInt n => Some (XDyadic n 0)
  | PyFloat f => Some (xnum_of_float f)
  | _ => None
  end.

(** [v >= t] for a float [t]: [None], strings, lists and dicts do not
    order against a float. *)
Definition ge_float (v : pyval) (t : float) : res bool :=
  match numeric_value v with
  | Some x => Ok (xnum_ge x (xnum_of_float t))
  | None => Raise TypeError
  end.

(** [t >= n] for a float [t] and an int [n]. *)
Definition float_ge_int (t : float) (n : Z) : bool :=
  xnum_ge (xnum_of_float t) (XDyadic n 0).

(** [t1 <= t2] on floats. *)
Definition fle (t1 t2 : float) : bool :=
  xnum_le (xnum_of_float t1) (xnum_of_float t2).

(** Conversion of an [int] operand to [float] in mixed arithmetic: it raises
    when the integer is too large. *)
Definition int_to_float (n : Z) : res float :=
  match float_of_Z n with
  | S754_infinity _ => Raise OverflowError
  | f => Ok f
  end.

Definition to_float_operand (v : pyval) : res float :=
  match v with
  | PyFloat f => Ok f
  | PyInt n => int_to_float n
  | PyBool b => Ok (float_of_Z (if b then 1 else 0))
  | _ => Raise TypeError
  end.

(** [s + v] for a float [s]. *)
Definition float_add (s : float) (v : pyval) : res float :=
  match to_float_operand v with
  | Ok f => Ok (fadd s f)
  | Raise e => Raise e
  end.

(** [s / n] for a float [s] and an int [n]. *)
Definition float_truediv_int (s : float) (n : Z) : res float :=
  match int_to_float n with
  | Ok (S754_zero _) => Raise ZeroDivisionError
  | Ok f => Ok (fdiv s f)
  | Raise e => Raise e
  end.

End Py.
Export Py.

(** ** State, events and the monad of the handled code *)

(** The module-level variables (lines 78-89), and the number of times the
    clock has been read. *)
Record state := {
  timestamps : list pyval;
  temperatures : list pyval;
  total_messages : Z;
  high_temps_sum : float;
  high_temp_count : Z;
  window_messages : Z;
  window_start : float;
  time_calls : nat
}.

Inductive level := DEBUG | INFO | WARNING | ERROR.

Inductive log_text :=
| Raw_message (message : string)
| Processed_JSON_message (data : pyval)
| Invalid_message (message : string)
| JSON_decoding_error (message : string)
| Error_processing_message (message : string) (e : exn)
| High_temp_threshold (t : float)
| Rolling_window_size (n : Z)
| Kafka_topic (topic : string)
| Kafka_consumer_group_id (group_id : string)
| START_consumer
| Polling_messages (topic : string)
| Received_message (message : string)
| Consumer_interrupted
| Error_while_consuming (e : exn)
| Consumer_closed (topic : string).

(** What a run shows to the outside: log records, the bar chart as drawn
    ([ax.bar(timestamps, temperatures, color=bar_colors)]) and the analytics
    block printed on standard output (its two figures). *)
Inductive event :=
| Log (lvl : level) (text : log_text)
| Bar_chart (x height : list pyval) (colors : list string)
| Analytics (total : Z) (avg_high_temp : float).

Definition M (A : Type) : Type := state -> res A * state * list event.

Definition ret {A} (a : A) : M A := fun st => (Ok a, st, []).

Definition bind {A B} (c : M A) (k : A -> M B) : M B :=
  fun st =>
    match c st with
    | (Ok a, st1, out1) =>
        match k a st1 with
        | (r, st2, out2) => (r, st2, out1 ++ out2)
        end
    | (Raise e, st1, out1) => (Raise e, st1, out1)
    end.

Definition lift {A} (r : res A) : M A := fun st => (r, st, []).

Definition get_state : M state := fun st => (Ok st, st, []).

Definition modify (f : state -> state) : M unit := fun st => (Ok tt, f st, []).

Definition emit (ev : event) : M unit := fun st => (Ok tt, st, [ev]).

Definition log (lvl : level) (text : log_text) : M unit := emit (Log lvl text).

(** [try: body  except Exception as e: handler e]; the state reached when
    the exception was raised is the one the handler starts from. *)
Definition try_except {A} (body : M A) (handler : exn -> M A) : M A :=
  fun st =>
    match body st with
    | (Ok a, st1, out1) => (Ok a, st1, out1)
    | (Raise e, st1, out1) =>
        match handler e st1 with
        | (r, st2, out2) => (r, st2, out1 ++ out2)
        end
    end.

Declare Scope py_scope.
Delimit Scope py_scope with py.
Notation "x <- c ;; k" := (bind c (fun x => k))
  (at level 100, c at next level, right associativity) : py_scope.
Notation "c ;; k" := (bind c (fun _ => k))
  (at level 100, right associativity) : py_scope.
Local Open Scope py_scope.

(** The setters of the variables the handled code assigns. *)
Definition append_timestamp (v : pyval) (st : state) : state :=
  {| timestamps := timestamps st ++ [v]; temperatures := temperatures st;
     total_messages := total_messages st; high_temps_sum := high_temps_sum st;
     high_temp_count := high_temp_count st;
     window_messages := window_messages st; window_start := window_start st;
     time_calls := time_calls st |}.

Definition append_temperature (v : pyval) (st : state) : state :=
  {| timestamps := timestamps st; temperatures := temperatures st ++ [v];
     total_messages := total_messages st; high_temps_sum := high_temps_sum st;
     high_temp_count := high_temp_count st;
     window_messages := window_messages st; window_start := window_start st;
     time_calls := time_calls st |}.

Definition set_total_messages (n : Z) (st : state) : state :=
  {| timestamps := timestamps st; temperatures := temperatures st;
     total_messages := n; high_temps_sum := high_temps_sum st;
     high_temp_count := high_temp_count st;
     window_messages := window_messages st; window_start := window_start st;
     time_calls := time_calls st |}.

Definition set_high_temps_sum (s : float) (st : state) : state :=
  {| timestamps := timestamps st; temperatures := temperatures st;
     total_messages := total_messages st; high_temps_sum := s;
     high_temp_count := high_temp_count st;
     window_messages := window_messages st; window_start := window_start st;
     time_calls := time_calls st |}.

Definition set_high_temp_count (n : Z) (st : state) : state :=
  {| timestamps := timestamps st; temperatures := temperatures st;
     total_messages := total_messages st; high_temps_sum := high_temps_sum st;
     high_temp_count := n;
     window_messages := window_messages st; window_start := window_start st;
     time_calls := time_calls st |}.

Definition set_window_messages (n : Z) (st : state) : state :=
  {| timestamps := timestamps st; temperatures := temperatures st;
     total_messages := total_messages st; high_temps_sum := high_temps_sum st;
     high_temp_count := high_temp_count st;
     window_messages := n; window_start := window_start st;
     time_calls := time_calls st |}.

Definition set_window_start (t : float) (st : state) : state :=
  {| timestamps := timestamps st; temperatures := temperatures st;
     total_messages := total_messages st; high_temps_sum := high_temps_sum st;
     high_temp_count := high_temp_count st;
     window_messages := window_messages st; window_start := t;
     time_calls := time_calls st |}.

Definition clear_history (st : state) : state :=
  {| timestamps := []; temperatures := [];
     total_messages := total_messages st; high_temps_sum := high_temps_sum st;
     high_temp_count := high_temp_count st;
     window_messages := window_messages st; window_start := window_start st;
     time_calls := time_calls st |}.

Definition tick (st : state) : state :=
  {| timestamps := timestamps st; temperatures := temperatures st;
     total_messages := total_messages st; high_temps_sum := high_temps_sum st;
     high_temp_count := high_temp_count st;
     window_messages := window_messages st; window_start := window_start st;
     time_calls := S (time_calls st) |}.

(** [collections.deque(maxlen=...)]: the object [main] creates and hands to
    every call of [process_message]. *)
Record deque := { maxlen : Z; items : list pyval }.

Definition deque_new (n : Z) : res deque :=
  if n <? 0 then Raise ValueError else Ok {| maxlen := n; items := [] |}.

(** The comprehension of line 128; the first comparison that raises ends
    it. *)
Fixpoint bar_colors (high_temp_threshold : float) (temps : list pyval)
  : res (list string) :=
  match temps with
  | [] => Ok []
  | temp :: rest =>
      match ge_float temp high_temp_threshold with
      | Raise e => Raise e
      | Ok hot =>
          match bar_colors high_temp_threshold rest with
          | Raise e => Raise e
          | Ok colors => Ok ((if hot then "red" else "blue")%string :: colors)
          end
      end
  end.

(** ** A JSON decoder

    The theorems below hold for every decoder.  To run the program on
    message texts, [Json.loads] follows the grammar of Python's decoder:
    objects (a repeated key keeps its last value), arrays, strings with their
    escapes (a [str] is held as its UTF-8 bytes), numbers (an [int] when
    there is neither fraction nor exponent, the nearest [float] otherwise),
    [true], [false], [null], [NaN], [Infinity] and [-Infinity]; anything else
    is a [JSONDecodeError]. *)

Module Json.

Definition dquote : ascii := ascii_of_nat 34.
Definition backslash : ascii := ascii_of_nat 92.

Definition is_ws (c : ascii) : bool :=
  (c =? " ")%char || (c =? ascii_of_nat 9)%char
  || (c =? ascii_of_nat 10)%char || (c =? ascii_of_nat 13)%char.

Fixpoint skip_ws (s : string) : string :=
  match s with
  | String c rest => if is_ws c then skip_ws rest else s
  | EmptyString => s
  end.

Definition digit_value (c : ascii) : option Z :=
  let n := Z.of_nat (nat_of_ascii c) in
  if (48 <=? n) && (n <=? 57) then Some (n - 48) else None.

Definition hex_value (c : ascii) : option Z :=
  let n := Z.of_nat (nat_of_ascii c) in
  if (48 <=? n) && (n <=? 57) then Some (n - 48)
  else if (65 <=? n) && (n <=? 70) then Some (n - 55)
  else if (97 <=? n) && (n <=? 102) then Some (n - 87)
  else None.

(** The longest run of decimal digits at the head of [s]: its value, its
    length and what follows. *)
Fixpoint digits (s : string) (acc : Z) (len : Z) : Z * Z * string :=
  match s with
  | String c rest =>
      match digit_value c with
      | Some d => digits rest (10 * acc + d) (len + 1)
      | None => (acc, len, s)
      end
  | EmptyString => (acc, len, s)
  end.

(** The float nearest to [m * 10^e], for [m > 0]. *)
Definition decimal_to_float (negative : bool) (m : Z) (e : Z) : float :=
  if m =? 0 then S754_zero negative
  else if 0 <=? e then binary_normalize prec emax (cond_Zopp negative (m * 10 ^ e)) 0 false
  else
    let '(q, e', l) := SFdiv_core_binary prec emax m 0 (10 ^ (- e)) 0 in
    binary_round_aux prec emax negative q e' l.

(** A number at the head of [s]: an optional minus sign, then a zero or a
    digit run not starting with zero, then an optional fraction (a dot and
    digits) and an optional exponent (e or E, an optional sign, digits). *)
Definition number (s : string) : option (pyval * string) :=
  let '(negative, s1) :=
    match s with
    | String "-" rest => (true, rest)
    | _ => (false, s)
    end in
  let integer :=
    match s1 with
    | String "0" rest => Some (0, 1, rest)
    | _ => let '(n, len, rest) := digits s1 0 0 in
           if len =? 0 then None else Some (n, len, rest)
    end in
  match integer with
  | None => None
  | Some (n, _, s2) =>
      let '(frac, s3) :=
        match s2 with
        | String "." rest =>
            let '(f, len, rest') := digits rest 0 0 in
            if len =? 0 then (None, s2) else (Some (f, len), rest')
        | _ => (None, s2)
        end in
      let '(expo, s4) :=
        let exponent_digits (neg : bool) (rest : string) :=
          let '(x, len, rest') := digits rest 0 0 in
          if len =? 0 then (None, s3) else (Some (cond_Zopp neg x), rest') in
        match s3 with
        | String c rest =>
            if (c =? "e")%char || (c =? "E")%char then
              match rest with
              | String "-" rest' => exponent_digits true rest'
              | String "+" rest' => exponent_digits false rest'
              | _ => exponent_digits false rest
              end
            else (None, s3)
        | EmptyString => (None, s3)
        end in
      match frac, expo with
      | None, None => Some (PyInt (cond_Zopp negative n), s4)
      | _, _ =>
          let '(f, flen) := default (0, 0) frac in
          let x := default 0 expo in
          Some (PyFloat (decimal_to_float negative (n * 10 ^ flen + f) (x - flen)), s4)
      end
  end.

(** The UTF-8 bytes of a code point. *)
Definition utf8 (cp : Z) : string :=
  let byte (n : Z) := ascii_of_nat (Z.to_nat n) in
  if cp <? 128 then String (byte cp) EmptyString
  else if cp <? 2048 then
    String (byte (192 + cp / 64)) (String (byte (128 + cp mod 64)) EmptyString)
  else if cp <? 65536 then
    String (byte (224 + cp / 4096))
      (String (byte (128 + (cp / 64) mod 64))
         (String (byte (128 + cp mod 64)) EmptyString))
  else
    String (byte (240 + cp / 262144))
      (String (byte (128 + (cp / 4096) mod 64))
         (String (byte (128 + (cp / 64) mod 64))
            (String (byte (128 + cp mod 64)) EmptyString))).

Definition hex4 (s : string) : option (Z * string) :=
  match s with
  | String a (String b (String c (String d rest))) =>
      match hex_value a, hex_value b, hex_value c, hex_value d with
      | Some a, Some b, Some c, Some d =>
          Some (((a * 16 + b) * 16 + c) * 16 + d, rest)
      | _, _, _, _ => None
      end
  | _ => None
  end.

(** The rest of a string literal after its opening quote. *)
Fixpoint string_body (fuel : nat) (s : string) (acc : string)
  : option (string * string) :=
  match fuel with
  | O => None
  | S fuel =>
      match s with
      | EmptyString => None
      | String c rest =>
          if (c =? dquote)%char then Some (acc, rest)
          else if (c =? backslash)%char then
            match rest with
            | String e rest' =>
                let simple (b : ascii) :=
                  string_body fuel rest' (acc ++ String b EmptyString) in
                if (e =? dquote)%char then simple dquote
                else if (e =? backslash)%char then simple backslash
                else if (e =? "/")%char then simple "/"%char
                else if (e =? "b")%char then simple (ascii_of_nat 8)
                else if (e =? "f")%char then simple (ascii_of_nat 12)
                else if (e =? "n")%char then simple (ascii_of_nat 10)
                else if (e =? "r")%char then simple (ascii_of_nat 13)
                else if (e =? "t")%char then simple (ascii_of_nat 9)
                else if (e =? "u")%char then
                  match hex4 rest' with
                  | Some (hi, rest'') =>
                      let single := string_body fuel rest'' (acc ++ utf8 hi) in
                      if (55296 <=? hi) && (hi <=? 56319) then
                        match rest'' with
                        | String b1 (String b2 rest3) =>
                            if (b1 =? backslash)%char && (b2 =? "u")%char then
                              match hex4 rest3 with
                              | Some (lo, rest4) =>
                                  if (56320 <=? lo) && (lo <=? 57343) then
                                    string_body fuel rest4
                                      (acc ++ utf8 (65536 + (hi - 55296) * 1024 + (lo - 56320)))
                                  else single
                              | None => single
                              end
                            else single
                        | _ => single
                        end
                      else single
                  | None => None
                  end
                else None
            | EmptyString => None
            end
          else if Z.of_nat (nat_of_ascii c) <? 32 then None
          else string_body fuel rest (acc ++ String c EmptyString)
      end
  end.

Definition string_literal (s : string) : option (string * string) :=
  match s with
  | String c rest =>
      if (c =? dquote)%char then string_body (String.length s) rest EmptyString
      else None
  | EmptyString => None
  end.

Definition literal (word : string) (v : pyval) (s : string)
  : option (pyval * string) :=
  if String.prefix word s
  then Some (v, String.substring (String.length word)
                                 (String.length s - String.length word) s)
  else None.

Inductive mode :=
| Value
| Elements (acc : list pyval)
| Members (acc : gmap string pyval).

(** One value ([Value]), or the elements of an array after its bracket, or
    the members of an object after its brace. *)
Fixpoint scan (fuel : nat) (m : mode) (s : string) : option (pyval * string) :=
  match fuel with
  | O => None
  | S fuel =>
      match m with
      | Value =>
          match s with
          | EmptyString => None
          | String c rest =>
              if (c =? dquote)%char then
                match string_literal s with
                | Some (str, rest') => Some (PyStr str, rest')
                | None => None
                end
              else if (c =? "{")%char then
                match skip_ws rest with
                | String "}" rest' => Some (PyDict ∅, rest')
                | rest' => scan fuel (Members ∅) rest'
                end
              else if (c =? "[")%char then
                match skip_ws rest with
                | String "]" rest' => Some (PyList [], rest')
                | rest' => scan fuel (Elements []) rest'
                end
              else if (c =? "n")%char then literal "null" PyNone s
              else if (c =? "t")%char then literal "true" (PyBool true) s
              else if (c =? "f")%char then literal "false" (PyBool false) s
              else
                match number s with
                | Some r => Some r
                | None =>
                    if (c =? "N")%char then literal "NaN" (PyFloat S754_nan) s
                    else if (c =? "I")%char
                    then literal "Infinity" (PyFloat (S754_infinity false)) s
                    else if (c =? "-")%char
                    then literal "-Infinity" (PyFloat (S754_infinity true)) s
                    else None
                end
          end
      | Elements acc =>
          match scan fuel Value s with
          | Some (v, rest) =>
              match skip_ws rest with
              | String "]" rest' => Some (PyList (acc ++ [v]), rest')
              | String "," rest' => scan fuel (Elements (acc ++ [v])) (skip_ws rest')
              | _ => None
              end
          | None => None
          end
      | Members acc =>
          match string_literal s with
          | Some (key, rest) =>
              match skip_ws rest with
              | String ":" rest' =>
                  match scan fuel Value (skip_ws rest') with
                  | Some (v, rest'') =>
                      match skip_ws rest'' with
                      | String "}" rest3 => Some (PyDict (<[key:=v]> acc), rest3)
                      | String "," rest3 =>
                          scan fuel (Members (<[key:=v]> acc)) (skip_ws rest3)
                      | _ => None
                      end
                  | None => None
                  end
              | _ => None
              end
          | None => None
          end
      end
  end.

Definition loads (s : string) : res pyval :=
  match scan (2 * String.length s + 1) Value (skip_ws s) with
  | Some (v, rest) =>
      match skip_ws rest with
      | EmptyString => Ok v
      | _ => Raise JSONDecodeError
      end
  | None => Raise JSONDecodeError
  end.

(** Message texts are written with an apostrophe for the double quote. *)
Fixpoint text (s : string) : string :=
  match s with
  | String c rest =>
      String (if (c =? "'")%char then dquote else c) (text rest)
  | EmptyString => EmptyString
  end.

End Json.

(** ** Concrete inputs

    The environment, clocks and message texts the theorems are run on. *)

Module Scenario.

(** The environment unset: the defaults of lines 65 and 70. *)
Definition threshold : res float := Ok (float_of_Z 90).
Definition size : res Z := Ok 5.
Definition topic : string := "unknown_topic".
Definition group_id : string := "default_group".

(** A clock that reads 0.0 when the module is loaded and 100.0 at every
    later call. *)
Definition clock (k : nat) : float :=
  match k with
  | O => fzero
  | S _ => float_of_Z 100
  end.

(** A clock that advances ten seconds between two readings. *)
Definition ticking_clock (k : nat) : float := float_of_Z (10 * Z.of_nat k).

(** A display that draws whatever it is given. *)
Definition draws (x height : list pyval) (colors : list string) : option exn :=
  None.

Definition message_80 : string :=
  Json.text "{'timestamp':'t1','temperature':80}".
Definition message_95 : string :=
  Json.text "{'timestamp':'t2','temperature':95}".
Definition message_100 : string :=
  Json.text "{'timestamp':'t3','temperature':100}".
Definition message_hot : string :=
  Json.text "{'timestamp':'t1','temperature':'hot'}".
Definition message_no_temperature : string :=
  Json.text "{'timestamp':'t1'}".
Definition not_json : string := "not json".

(** A temperature of 1 followed by 400 zeros. *)
Definition message_huge : string :=
  (Json.text "{'timestamp':'t1','temperature':1"
   ++ String.concat "" (repeat "0" 400) ++ "}")%string.

Definition float_97_5 : float := Json.decimal_to_float false 975 (-1).

Definition a_deque : deque := {| maxlen := 5; items := [] |}.

(** [deque.append] on a bounded deque: the oldest item leaves when the
    deque is full. *)
Definition deque_append (x : pyval) (d : deque) : deque :=
  if maxlen d =? 0 then d
  else
    let l := items d ++ [x] in
    {| maxlen := maxlen d;
       items := if maxlen d <? Z.of_nat (length l) then tail l else l |}.

(** From the spec's words: the rolling window holds the most recent
    temperatures, one appended for each accepted reading. *)
Definition claimed_rolling_window (capacity : Z) (temps : list pyval) : deque :=
  fold_left (fun d x => deque_append x d) temps
            {| maxlen := capacity; items := [] |}.

End Scenario.

(** ** The program *)

Section Consumer.

(** [json.loads]. *)
Variable json_loads : string -> res pyval.
(** [time.time()]: the reading returned by its k-th call; call 0 is the one
    of line 89. *)
Variable time_time : nat -> float.
(** The Matplotlib calls of [update_chart] on the data they are given:
    [None] when they return, the exception otherwise. *)
Variable pyplot : list pyval -> list pyval -> list string -> option exn.
(** [float(os.getenv("SMOKER_HIGH_TEMP_THRESHOLD_F", 90.0))] and
    [int(os.getenv("SMOKER_ROLLING_WINDOW_SIZE", 5))]: the converted value,
    or the [ValueError] of the conversion. *)
Variable SMOKER_HIGH_TEMP_THRESHOLD_F : res float.
Variable SMOKER_ROLLING_WINDOW_SIZE : res Z.
Variable SMOKER_TOPIC : string.
Variable SMOKER_CONSUMER_GROUP_ID : string.

Definition get_kafka_topic : M string :=
  let topic := SMOKER_TOPIC in
  log INFO (Kafka_topic topic) ;;
  ret topic.

Definition get_kafka_consumer_group_id : M string :=
  let group_id := SMOKER_CONSUMER_GROUP_ID in
  log INFO (Kafka_consumer_group_id group_id) ;;
  ret group_id.

Definition get_rolling_window_size : M Z :=
  window_size <- lift SMOKER_ROLLING_WINDOW_SIZE ;;
  log INFO (Rolling_window_size window_size) ;;
  ret window_size.

Definition get_high_temp_threshold : M float :=
  threshold <- lift SMOKER_HIGH_TEMP_THRESHOLD_F ;;
  log INFO (High_temp_threshold threshold) ;;
  ret threshold.

Definition time_time_call : M float :=
  fun st => (Ok (time_time (time_calls st)), tick st, []).

(** Lines 110-144. *)
Definition update_chart : M unit :=
  high_temp_threshold <- get_high_temp_threshold ;;
  st <- get_state ;;
  bar_colors <- lift (bar_colors high_temp_threshold (temperatures st)) ;;
  match pyplot (timestamps st) (temperatures st) bar_colors with
  | Some e => lift (Raise e)
  | None => emit (Bar_chart (timestamps st) (temperatures st) bar_colors)
  end.

(** Line 191. *)
Definition avg_high_temp (st : state) : res float :=
  if high_temp_count st =? 0 then Ok fzero
  else float_truediv_int (high_temps_sum st) (high_temp_count st).

(** Lines 189-198. *)
Definition periodic_analytics_report : M unit :=
  now <- time_time_call ;;
  st <- get_state ;;
  let elapsed := fsub now (window_start st) in
  size <- get_rolling_window_size ;;
  if float_ge_int elapsed size then
    avg <- lift (avg_high_temp st) ;;
    emit (Analytics (total_messages st) avg) ;;
    modify (set_window_messages 0) ;;
    now <- time_time_call ;;
    modify (set_window_start now)
  else ret tt.

(** Lines 176-183. *)
Definition record_reading (timestamp temperature : pyval) : M unit :=
  modify (append_timestamp timestamp) ;;
  modify (append_temperature temperature) ;;
  modify (fun st => set_total_messages (total_messages st + 1) st) ;;
  modify (fun st => set_window_messages (window_messages st + 1) st) ;;
  threshold <- get_high_temp_threshold ;;
  hot <- lift (ge_float temperature threshold) ;;
  if hot : bool then
    st <- get_state ;;
    sum <- lift (float_add (high_temps_sum st) temperature) ;;
    modify (set_high_temps_sum sum) ;;
    modify (fun st => set_high_temp_count (high_temp_count st + 1) st)
  else ret tt.

(** Lines 162-198, the body of the [try]. *)
Definition process_message_body (message : string) : M unit :=
  log DEBUG (Raw_message message) ;;
  data <- lift (json_loads message) ;;
  temperature <- lift (get data "temperature") ;;
  timestamp <- lift (get data "timestamp") ;;
  log INFO (Processed_JSON_message data) ;;
  if is_None timestamp || is_None temperature then
    log ERROR (Invalid_message message)
  else
    record_reading timestamp temperature ;;
    update_chart ;;
    periodic_analytics_report.

(** Lines 200-203. *)
Definition process_message_handler (message : string) (e : exn) : M unit :=
  match e with
  | JSONDecodeError => log ERROR (JSON_decoding_error message)
  | _ => log ERROR (Error_processing_message message e)
  end.

(** Lines 152-203.  The deque is passed by reference: the result is the
    deque as the call leaves it. *)
Definition process_message (message : string) (rolling_window : deque)
    (window_size : Z) : M deque :=
  try_except (process_message_body message)
             (process_message_handler message) ;;
  ret rolling_window.

(** The loop of lines 237-240 over the records the consumer yields. *)
Fixpoint poll (messages : list string) (rolling_window : deque)
    (window_size : Z) : M deque :=
  match messages with
  | [] => ret rolling_window
  | message_str :: rest =>
      log DEBUG (Received_message message_str) ;;
      rolling_window <- process_message message_str rolling_window window_size ;;
      poll rest rolling_window window_size
  end.

(** How the iteration over the consumer ends. *)
Inductive ending :=
| Exhausted
| Interrupted            (* KeyboardInterrupt *)
| Failed (e : exn).

(** Lines 210-247; [create_kafka_consumer] is taken to return. *)
Definition main (messages : list string) (stop : ending) : M deque :=
  log INFO START_consumer ;;
  modify clear_history ;;
  topic <- get_kafka_topic ;;
  group_id <- get_kafka_consumer_group_id ;;
  window_size <- get_rolling_window_size ;;
  rolling_window <- lift (deque_new window_size) ;;
  log INFO (Polling_messages topic) ;;
  rolling_window <- poll messages rolling_window window_size ;;
  match stop with
  | Exhausted => ret tt
  | Interrupted => log WARNING Consumer_interrupted
  | Failed e => log ERROR (Error_while_consuming e)
  end ;;
  log INFO (Consumer_closed topic) ;;
  ret rolling_window.

(** The state the module is loaded in (lines 78-89). *)
Definition initial_state : state :=
  {| timestamps := []; temperatures := [];
     total_messages := 0; high_temps_sum := fzero; high_temp_count := 0;
     window_messages := 0; window_start := time_time 0%nat;
     time_calls := 1 |}.

(** ** Readings, and the vocabulary of the properties *)

(** The reading a message carries when it passes the test of line 172:
    [(timestamp, temperature)]. *)
Definition reading_of (message : string) : option (pyval * pyval) :=
  match json_loads message with
  | Ok (PyDict d) =>
      let temperature := default PyNone (d !! "temperature"%string) in
      let timestamp := default PyNone (d !! "timestamp"%string) in
      if is_None timestamp || is_None temperature then None
      else Some (timestamp, temperature)
  | _ => None
  end.

Definition readings (messages : list string) : list (pyval * pyval) :=
  omap reading_of messages.

(** The state a call leaves right after lines 176-180. *)
Definition recorded (timestamp temperature : pyval) (st : state) : state :=
  {| timestamps := timestamps st ++ [timestamp];
     temperatures := temperatures st ++ [temperature];
     total_messages := total_messages st + 1;
     high_temps_sum := high_temps_sum st;
     high_temp_count := high_temp_count st;
     window_messages := window_messages st + 1;
     window_start := window_start st;
     time_calls := time_calls st |}.

Definition is_log (ev : event) : bool :=
  match ev with Log _ _ => true | _ => false end.

Definition is_report (ev : event) : bool :=
  match ev with Analytics _ _ => true | _ => false end.

Definition reports (out : list event) : list event :=
  List.filter is_report out.

(** The handled body of an accepted reading. *)
Definition accepted_body (timestamp temperature : pyval) : M unit :=
  record_reading timestamp temperature ;;
  update_chart ;;
  periodic_analytics_report.

(** The record the handlers of lines 200-203 log for an exception. *)
Definition error_text (message : string) (e : exn) : log_text :=
  match e with
  | JSONDecodeError => JSON_decoding_error message
  | _ => Error_processing_message message e
  end.

(** The state [record_reading] leaves, whatever the comparison and the
    addition do (lines 176-183). *)
Definition after_reading (timestamp temperature : pyval) (st : state) : state :=
  match SMOKER_HIGH_TEMP_THRESHOLD_F with
  | Ok threshold =>
      match ge_float temperature threshold with
      | Ok true =>
          match float_add (high_temps_sum st) temperature with
          | Ok sum =>
              set_high_temp_count (high_temp_count st + 1)
                (set_high_temps_sum sum (recorded timestamp temperature st))
          | Raise _ => recorded timestamp temperature st
          end
      | _ => recorded timestamp temperature st
      end
  | Raise _ => recorded timestamp temperature st
  end.

(** The time elapsed since [window_start] at the next reading of the
    clock (line 189). *)
Definition elapsed (st : state) : float :=
  fsub (time_time (time_calls st)) (window_start st).

(** The state a report leaves (lines 197-198), the clock having been read
    twice. *)
Definition window_restarted (st : state) : state :=
  {| timestamps := timestamps st; temperatures := temperatures st;
     total_messages := total_messages st; high_temps_sum := high_temps_sum st;
     high_temp_count := high_temp_count st;
     window_messages := 0;
     window_start := time_time (S (time_calls st));
     time_calls := S (S (time_calls st)) |}.

(** The parts of the state that accumulate: the history and the counters. *)
Definition accumulated (st : state)
  : list pyval * list pyval * Z * float * Z :=
  (timestamps st, temperatures st, total_messages st, high_temps_sum st,
   high_temp_count st).

Definition state_of {A} (x : res A * state * list event) : state := snd (fst x).
Definition output_of {A} (x : res A * state * list event) : list event := snd x.
Definition result_of {A} (x : res A * state * list event) : res A := fst (fst x).

(** The accumulating step of one message. *)
Definition accumulate (st : state) (reading : pyval * pyval) : state :=
  after_reading (fst reading) (snd reading) st.

(** A decoded object lacks a field when the key is absent or its value is
    [null]. *)
Definition field_missing (d : gmap string pyval) (key : string) : Prop :=
  d !! key = None \/ d !! key = Some PyNone.

Definition lacks_field (message : string) : Prop :=
  exists d, json_loads message = Ok (PyDict d)
    /\ (field_missing d "temperature" \/ field_missing d "timestamp").

Definition is_drawn_or_printed (ev : event) : bool := negb (is_log ev).

(** The analytics block the check of lines 189-195 prints in state [st], if
    any. *)
Definition report_due (st : state) : list event :=
  match SMOKER_ROLLING_WINDOW_SIZE with
  | Ok size =>
      if float_ge_int (elapsed st) size then
        match avg_high_temp st with
        | Ok avg => [Analytics (total_messages st) avg]
        | Raise _ => []
        end
      else []
  | Raise _ => []
  end.

(** ** What the statistics should be *)

(** A temperature counts as high when line 181 finds it so. *)
Definition is_high (threshold : float) (temperature : pyval) : bool :=
  match ge_float temperature threshold with
  | Ok hot => hot
  | Raise _ => false
  end.

(** The temperatures line 182 can add to a float: floats, and the integers
    (and booleans) that convert to one. *)
Definition has_float_value (temperature : pyval) : Prop :=
  exists f, to_float_operand temperature = Ok f.

Definition float_operand (temperature : pyval) : float :=
  match to_float_operand temperature with
  | Ok f => f
  | Raise _ => S754_nan
  end.

(** The sum as the program forms it: float additions in order of arrival. *)
Definition float_sum (start : float) (values : list float) : float :=
  fold_left fadd values start.

Definition high_temperatures (threshold : float) (temps : list pyval)
  : list pyval :=
  List.filter (is_high threshold) temps.

Definition expected_count (threshold : float) (temps : list pyval) : Z :=
  Z.of_nat (length (high_temperatures threshold temps)).

Definition expected_sum (threshold : float) (temps : list pyval) : float :=
  float_sum fzero (map float_operand (high_temperatures threshold temps)).

Definition expected_average (threshold : float) (temps : list pyval) : float :=
  if expected_count threshold temps =? 0 then fzero
  else fdiv (expected_sum threshold temps)
            (float_of_Z (expected_count threshold temps)).

(** ** Charts, receipts and the invariants of the counters *)

Definition is_chart (ev : event) : bool :=
  match ev with Bar_chart _ _ _ => true | _ => false end.

Definition charts (out : list event) : list event :=
  List.filter is_chart out.

(** The colour line 128 gives a temperature that orders against the
    threshold. *)
Definition bar_color (threshold : float) (temperature : pyval) : string :=
  if is_high threshold temperature then "red" else "blue".

(** The chart [update_chart] draws in state [st], if it draws. *)
Definition chart_due (st : state) : list event :=
  match SMOKER_HIGH_TEMP_THRESHOLD_F with
  | Ok threshold =>
      match bar_colors threshold (temperatures st) with
      | Ok colors =>
          match pyplot (timestamps st) (temperatures st) colors with
          | None => [Bar_chart (timestamps st) (temperatures st) colors]
          | Some _ => []
          end
      | Raise _ => []
      end
  | Raise _ => []
  end.

(** The messages whose receipt line 239 logged. *)
Definition received (out : list event) : list string :=
  omap (fun ev => match ev with
                  | Log DEBUG (Received_message message) => Some message
                  | _ => None
                  end) out.

Definition red_bars (colors : list string) : nat :=
  length (List.filter (String.eqb "red") colors).

(** What the counters keep: the high readings and the readings of the
    current window are among the readings counted. *)
Definition counters_in_range (st : state) : Prop :=
  0 <= high_temp_count st <= total_messages st
  /\ 0 <= window_messages st <= total_messages st.

(** [window_start] is a reading the clock has already given. *)
Definition window_start_is_a_reading (st : state) : Prop :=
  exists k, (k < time_calls st)%nat /\ window_start st = time_time k.

(** A recorded temperature that does not order against a float. *)
Definition unordered (temperature : pyval) : Prop :=
  numeric_value temperature = None.

Ltac run_M :=
  unfold accepted_body, process_message, process_message_body,
    process_message_handler, record_reading, update_chart,
    periodic_analytics_report, get_high_temp_threshold,
    get_rolling_window_size, time_time_call, try_except, bind, lift, ret,
    modify, emit, log, get_state in *.

(** ** Handling one message *)

Lemma process_message_rejected message rolling_window window_size st :
  reading_of message = None ->
  exists out,
    process_message message rolling_window window_size st
      = (Ok rolling_window, st, out)
    /\ forallb is_log out = true
    /\ exists text, last out = Some (Log ERROR text).
Proof.
  unfold reading_of. intros H. run_M.
  destruct (json_loads message) as [data|e].
  - destruct data; simpl in *; try discriminate;
      try (eexists; split; [reflexivity|]; split; [reflexivity|]; eexists; reflexivity).
    destruct (is_None (default PyNone (d !! "timestamp"%string))
              || is_None (default PyNone (d !! "temperature"%string))) eqn:E;
      [|discriminate].
    eexists; split; [reflexivity|]; split; [reflexivity|]; eexists; reflexivity.
  - simpl. destruct e; eexists; (split; [reflexivity|]); (split; [reflexivity|]);
      eexists; reflexivity.
Qed.

Lemma process_message_accepted message rolling_window window_size st
    timestamp temperature :
  reading_of message = Some (timestamp, temperature) ->
  exists data,
    json_loads message = Ok data /\
    process_message message rolling_window window_size st =
      let '(r, st', out) := accepted_body timestamp temperature st in
      (Ok rolling_window, st',
       [Log DEBUG (Raw_message message);
        Log INFO (Processed_JSON_message data)] ++ out ++
       match r with
       | Ok _ => []
       | Raise e => [Log ERROR (error_text message e)]
       end).
Proof.
  unfold reading_of. intros H.
  destruct (json_loads message) as [data|e] eqn:Hj; [|discriminate].
  exists data. split; [reflexivity|].
  destruct data; try discriminate.
  destruct (is_None (default PyNone (d !! "timestamp"%string))
            || is_None (default PyNone (d !! "temperature"%string))) eqn:E;
    [discriminate|].
  injection H as <- <-.
  unfold process_message, process_message_body, try_except, bind, lift, log,
    emit, ret. rewrite Hj. simpl. rewrite E.
  unfold accepted_body, bind.
  destruct (record_reading _ _ st) as [[[u|e] st1] out1]; simpl.
  - destruct (update_chart st1) as [[[u'|e] st2] out2]; simpl.
    + destruct (periodic_analytics_report st2) as [[[u''|e] st3] out3]; simpl.
      * rewrite !app_nil_r. reflexivity.
      * destruct e; simpl; rewrite ?app_nil_r, <- ?app_assoc; reflexivity.
    + destruct e; simpl; rewrite ?app_nil_r, <- ?app_assoc; reflexivity.
  - destruct e; simpl; rewrite ?app_nil_r, <- ?app_assoc; reflexivity.
Qed.

(** [update_chart] assigns no variable of the module. *)
Lemma update_chart_state st :
  exists r out, update_chart st = (r, st, out)
    /\ forallb (fun ev => negb (is_report ev)) out = true.
Proof.
  run_M. destruct SMOKER_HIGH_TEMP_THRESHOLD_F as [thr|e]; simpl; eauto.
  destruct (bar_colors thr (temperatures st)) as [cs|e]; simpl; eauto.
  destruct (pyplot (timestamps st) (temperatures st) cs); simpl; eauto.
Qed.

Lemma record_reading_state timestamp temperature st :
  exists r out,
    record_reading timestamp temperature st
      = (r, after_reading timestamp temperature st, out)
    /\ forallb is_log out = true.
Proof.
  run_M. unfold after_reading. simpl.
  destruct SMOKER_HIGH_TEMP_THRESHOLD_F as [thr|e]; simpl; eauto.
  destruct (ge_float temperature thr) as [[|]|e]; simpl; eauto.
  destruct (float_add (high_temps_sum st) temperature) as [s|e]; simpl; eauto.
Qed.

Lemma periodic_analytics_report_eq st :
  periodic_analytics_report st =
    match SMOKER_ROLLING_WINDOW_SIZE with
    | Raise e => (Raise e, tick st, [])
    | Ok size =>
        if float_ge_int (elapsed st) size then
          match avg_high_temp st with
          | Ok avg =>
              (Ok tt, window_restarted st,
               [Log INFO (Rolling_window_size size);
                Analytics (total_messages st) avg])
          | Raise e => (Raise e, tick st, [Log INFO (Rolling_window_size size)])
          end
        else (Ok tt, tick st, [Log INFO (Rolling_window_size size)])
    end.
Proof.
  run_M. unfold elapsed, avg_high_temp. simpl.
  destruct SMOKER_ROLLING_WINDOW_SIZE as [size|e]; simpl; [|reflexivity].
  destruct (float_ge_int _ size); simpl; [|reflexivity].
  destruct (high_temp_count st =? 0); simpl; [reflexivity|].
  destruct (float_truediv_int _ _); reflexivity.
Qed.

Lemma after_reading_accumulated timestamp temperature st1 st2 :
  accumulated st1 = accumulated st2 ->
  accumulated (after_reading timestamp temperature st1)
  = accumulated (after_reading timestamp temperature st2).
Proof.
  unfold accumulated, after_reading. intros H. injection H as H1 H2 H3 H4 H5.
  destruct SMOKER_HIGH_TEMP_THRESHOLD_F as [thr|e]; simpl;
    [|congruence].
  destruct (ge_float temperature thr) as [[|]|e]; simpl; try congruence.
  rewrite H4.
  destruct (float_add (high_temps_sum st2) temperature); simpl; congruence.
Qed.

Lemma periodic_analytics_report_accumulated st :
  accumulated (state_of (periodic_analytics_report st)) = accumulated st.
Proof.
  rewrite periodic_analytics_report_eq.
  destruct SMOKER_ROLLING_WINDOW_SIZE as [size|e]; [|reflexivity].
  destruct (float_ge_int _ _); [|reflexivity].
  destruct (avg_high_temp st); reflexivity.
Qed.

Lemma accepted_body_accumulated timestamp temperature st :
  accumulated (state_of (accepted_body timestamp temperature st))
  = accumulated (after_reading timestamp temperature st).
Proof.
  unfold accepted_body, bind.
  destruct (record_reading_state timestamp temperature st) as (r & out & -> & _).
  destruct r as [u|e]; [|reflexivity].
  destruct (update_chart_state (after_reading timestamp temperature st))
    as (r & out' & -> & _).
  destruct r as [u'|e]; [|reflexivity].
  pose proof (periodic_analytics_report_accumulated
                (after_reading timestamp temperature st)) as H.
  destruct (periodic_analytics_report _) as [[r st'] out'']. exact H.
Qed.

Lemma process_message_returns message rolling_window window_size st :
  result_of (process_message message rolling_window window_size st)
  = Ok rolling_window.
Proof.
  destruct (reading_of message) as [[ts temp]|] eqn:E.
  - destruct (process_message_accepted message rolling_window window_size st
                ts temp E) as (data & _ & ->).
    destruct (accepted_body ts temp st) as [[r st'] out]. reflexivity.
  - destruct (process_message_rejected message rolling_window window_size st E)
      as (out & -> & _). reflexivity.
Qed.

Lemma process_message_accumulated message rolling_window window_size st :
  accumulated (state_of (process_message message rolling_window window_size st))
  = accumulated (match reading_of message with
                 | Some reading => accumulate st reading
                 | None => st
                 end).
Proof.
  destruct (reading_of message) as [[ts temp]|] eqn:E.
  - destruct (process_message_accepted message rolling_window window_size st
                ts temp E) as (data & _ & ->).
    pose proof (accepted_body_accumulated ts temp st) as H.
    destruct (accepted_body ts temp st) as [[r st'] out]. exact H.
  - destruct (process_message_rejected message rolling_window window_size st E)
      as (out & -> & _). reflexivity.
Qed.

Lemma fold_accumulate_accumulated rs : forall st1 st2,
  accumulated st1 = accumulated st2 ->
  accumulated (fold_left accumulate rs st1)
  = accumulated (fold_left accumulate rs st2).
Proof.
  induction rs as [|[ts temp] rs IH]; intros st1 st2 H; simpl; [exact H|].
  apply IH. unfold accumulate. simpl. now apply after_reading_accumulated.
Qed.

Lemma poll_returns messages : forall rolling_window window_size st,
  result_of (poll messages rolling_window window_size st) = Ok rolling_window.
Proof.
  induction messages as [|m ms IH]; intros rw ws st; [reflexivity|].
  simpl. unfold bind, log, emit. simpl.
  pose proof (process_message_returns m rw ws st) as H.
  destruct (process_message m rw ws st) as [[r st1] out1].
  unfold result_of in H. simpl in H. subst r.
  specialize (IH rw ws st1).
  destruct (poll ms rw ws st1) as [[r st2] out2]. exact IH.
Qed.

Lemma poll_accumulated messages : forall rolling_window window_size st,
  accumulated (state_of (poll messages rolling_window window_size st))
  = accumulated (fold_left accumulate (readings messages) st).
Proof.
  induction messages as [|m ms IH]; intros rw ws st; [reflexivity|].
  simpl. unfold bind, log, emit. simpl.
  pose proof (process_message_returns m rw ws st) as Hr.
  pose proof (process_message_accumulated m rw ws st) as Ha.
  destruct (process_message m rw ws st) as [[r st1] out1].
  unfold result_of, state_of in Hr, Ha. simpl in Hr, Ha.
  subst r. specialize (IH rw ws st1).
  destruct (poll ms rw ws st1) as [[r st2] out2].
  unfold state_of in *. simpl in *.
  rewrite IH. unfold readings. simpl.
  destruct (reading_of m) as [reading|]; simpl;
    now apply fold_accumulate_accumulated.
Qed.

(** ** History and total *)

Lemma after_reading_history timestamp temperature st :
  timestamps (after_reading timestamp temperature st)
    = timestamps st ++ [timestamp]
  /\ temperatures (after_reading timestamp temperature st)
    = temperatures st ++ [temperature]
  /\ total_messages (after_reading timestamp temperature st)
    = total_messages st + 1.
Proof.
  unfold after_reading.
  destruct SMOKER_HIGH_TEMP_THRESHOLD_F as [thr|e]; [|now simpl].
  destruct (ge_float temperature thr) as [[|]|e]; try now simpl.
  destruct (float_add (high_temps_sum st) temperature); now simpl.
Qed.

Lemma fold_accumulate_history rs : forall st,
  timestamps (fold_left accumulate rs st) = timestamps st ++ map fst rs
  /\ temperatures (fold_left accumulate rs st) = temperatures st ++ map snd rs
  /\ total_messages (fold_left accumulate rs st)
     = total_messages st + Z.of_nat (length rs).
Proof.
  induction rs as [|[ts temp] rs IH]; intros st; simpl.
  - rewrite !app_nil_r. repeat split; lia.
  - destruct (IH (accumulate st (ts, temp))) as (-> & -> & ->).
    unfold accumulate. simpl.
    destruct (after_reading_history ts temp st) as (-> & -> & ->).
    rewrite <- !app_assoc. simpl. repeat split; lia.
Qed.

Lemma readings_all_valid messages :
  Forall (fun m => is_Some (reading_of m)) messages ->
  length (readings messages) = length messages.
Proof.
  unfold readings.
  induction 1 as [|m ms [r Hr] _ IH]; simpl; [reflexivity|].
  rewrite Hr. simpl. f_equal. exact IH.
Qed.

Lemma poll_triple messages rolling_window window_size st :
  poll messages rolling_window window_size st
  = (Ok rolling_window,
     state_of (poll messages rolling_window window_size st),
     output_of (poll messages rolling_window window_size st)).
Proof.
  pose proof (poll_returns messages rolling_window window_size st) as H.
  destruct (poll _ _ _ st) as [[r st'] out].
  unfold result_of in H. simpl in H. now subst r.
Qed.

Lemma poll_cons message messages rolling_window window_size st :
  let one := process_message message rolling_window window_size st in
  let others := poll messages rolling_window window_size (state_of one) in
  poll (message :: messages) rolling_window window_size st
  = (Ok rolling_window, state_of others,
     Log DEBUG (Received_message message) :: output_of one ++ output_of others).
Proof.
  intros one others. simpl. unfold bind, log, emit. simpl.
  pose proof (process_message_returns message rolling_window window_size st)
    as H.
  fold one in H |- *. destruct one as [[r st1] out1].
  unfold result_of in H. simpl in H. subst r.
  subst others. unfold state_of at 2. simpl.
  now rewrite (poll_triple messages rolling_window window_size st1).
Qed.

Lemma poll_app before : forall after rolling_window window_size st,
  let first := poll before rolling_window window_size st in
  let second := poll after rolling_window window_size (state_of first) in
  poll (before ++ after) rolling_window window_size st
  = (Ok rolling_window, state_of second, output_of first ++ output_of second).
Proof.
  induction before as [|m ms IH]; intros after rw ws st first second.
  - subst first second. simpl. apply poll_triple.
  - subst first second. rewrite <- app_comm_cons. rewrite !poll_cons.
    rewrite IH. unfold state_of, output_of. simpl.
    now rewrite <- app_assoc.
Qed.

Lemma main_result messages stop st :
  result_of (main messages stop st)
  = match SMOKER_ROLLING_WINDOW_SIZE with
    | Ok size => deque_new size
    | Raise e => Raise e
    end.
Proof.
  unfold main, get_kafka_topic, get_kafka_consumer_group_id,
    get_rolling_window_size, bind, lift, log, emit, modify, ret. simpl.
  destruct SMOKER_ROLLING_WINDOW_SIZE as [size|e]; simpl; [|reflexivity].
  destruct (deque_new size) as [rw|e]; simpl; [|reflexivity].
  rewrite (poll_triple messages rw size (clear_history st)).
  destruct stop; reflexivity.
Qed.

Lemma main_state messages stop st :
  state_of (main messages stop st)
  = match SMOKER_ROLLING_WINDOW_SIZE with
    | Ok size =>
        match deque_new size with
        | Ok rolling_window =>
            state_of (poll messages rolling_window size (clear_history st))
        | Raise _ => clear_history st
        end
    | Raise _ => clear_history st
    end.
Proof.
  unfold main, get_kafka_topic, get_kafka_consumer_group_id,
    get_rolling_window_size, bind, lift, log, emit, modify, ret. simpl.
  destruct SMOKER_ROLLING_WINDOW_SIZE as [size|e]; simpl; [|reflexivity].
  destruct (deque_new size) as [rw|e]; simpl; [|reflexivity].
  rewrite (poll_triple messages rw size (clear_history st)).
  destruct stop; reflexivity.
Qed.

(** C1.  After any sequence of messages handled from the state the module
    is loaded in (hence after each of its prefixes), [timestamps],
    [temperatures] and [total_messages] agree: the two lists have the same
    length, which is [total_messages], and they hold, in order, exactly the
    readings that passed the test of line 172, so they grow on accepted
    readings only; when all N messages are valid the three are N.  The same
    agreement holds after [main], however its loop ends. *)
Theorem history_and_total_grow_together messages rolling_window window_size
    stop :
  let st := state_of (poll messages rolling_window window_size initial_state) in
  let st_main := state_of (main messages stop initial_state) in
  length (timestamps st) = length (temperatures st)
  /\ Z.of_nat (length (timestamps st)) = total_messages st
  /\ timestamps st = map fst (readings messages)
  /\ temperatures st = map snd (readings messages)
  /\ total_messages st = Z.of_nat (length (readings messages))
  /\ (Forall (fun m => is_Some (reading_of m)) messages ->
      total_messages st = Z.of_nat (length messages)
      /\ length (timestamps st) = length messages
      /\ length (temperatures st) = length messages)
  /\ length (timestamps st_main) = length (temperatures st_main)
  /\ Z.of_nat (length (timestamps st_main)) = total_messages st_main.
Proof.
  assert (Hpoll : forall rw ws,
             let st := state_of (poll messages rw ws initial_state) in
             timestamps st = map fst (readings messages)
             /\ temperatures st = map snd (readings messages)
             /\ total_messages st = Z.of_nat (length (readings messages))).
  { intros rw ws st.
    pose proof (poll_accumulated messages rw ws initial_state) as H.
    fold st in H. unfold accumulated in H. injection H as Hts Htemp Htot _ _.
    destruct (fold_accumulate_history (readings messages) initial_state)
      as (Ets & Etemp & Etot).
    rewrite Ets in Hts. rewrite Etemp in Htemp. rewrite Etot in Htot.
    now simpl in Hts, Htemp, Htot. }
  intros st st_main.
  destruct (Hpoll rolling_window window_size) as (Hts & Htemp & Htot).
  fold st in Hts, Htemp, Htot.
  rewrite Hts, Htemp, Htot, !length_map.
  do 5 (split; [reflexivity|]).
  split.
  { intros Hall. apply readings_all_valid in Hall. now rewrite Hall. }
  subst st_main. rewrite main_state.
  destruct SMOKER_ROLLING_WINDOW_SIZE as [size|e]; [|now split].
  destruct (deque_new size) as [rw|e]; [|now split].
  change (clear_history initial_state) with initial_state.
  destruct (Hpoll rw size) as (-> & -> & ->).
  now rewrite !length_map.
Qed.

(** ** Rejected and half-recorded messages *)

Lemma lacks_field_rejected message :
  lacks_field message -> reading_of message = None.
Proof.
  intros (d & Hd & H). unfold reading_of. rewrite Hd.
  destruct H as [[H|H]|[H|H]]; rewrite H; simpl;
    now rewrite ?orb_true_r.
Qed.

Lemma not_json_rejected message e :
  json_loads message = Raise e -> reading_of message = None.
Proof. intros H. unfold reading_of. now rewrite H. Qed.

(** C3.  A message that is not JSON, or that decodes to an object without a
    temperature or a timestamp (absent or null), is handled without raising
    and leaves every variable of the module as it was: only log records are
    produced, the last one at error level.  The messages that follow are
    handled as if it had not been there: same final state, same charts and
    analytics blocks. *)
Theorem invalid_message_is_a_no_op message :
  json_loads message = Raise JSONDecodeError \/ lacks_field message ->
  (forall rolling_window window_size st,
      exists out,
        process_message message rolling_window window_size st
          = (Ok rolling_window, st, out)
        /\ forallb is_log out = true
        /\ exists text, last out = Some (Log ERROR text))
  /\ (forall before after rolling_window window_size st,
         let with_it :=
           poll (before ++ message :: after) rolling_window window_size st in
         let without_it :=
           poll (before ++ after) rolling_window window_size st in
         result_of with_it = Ok rolling_window
         /\ state_of with_it = state_of without_it
         /\ List.filter is_drawn_or_printed (output_of with_it)
            = List.filter is_drawn_or_printed (output_of without_it)).
Proof.
  intros H.
  assert (Hrej : reading_of message = None).
  { destruct H as [H|H];
      [eapply not_json_rejected; eassumption | now apply lacks_field_rejected]. }
  split.
  - intros rw ws st. now apply process_message_rejected.
  - intros before after rw ws st with_it without_it.
    subst with_it without_it. rewrite !poll_app.
    set (st1 := state_of (poll before rw ws st)).
    rewrite poll_cons.
    destruct (process_message_rejected message rw ws st1 Hrej)
      as (out & -> & Hlog & _).
    unfold result_of, state_of, output_of. simpl.
    split; [reflexivity|]. split; [reflexivity|].
    rewrite !List.filter_app. f_equal. simpl.
    rewrite List.filter_app.
    assert (Hnil : List.filter is_drawn_or_printed out = []).
    { clear -Hlog. induction out as [|ev out IH]; [reflexivity|].
      simpl in Hlog. apply andb_prop in Hlog as [H1 H2].
      simpl. unfold is_drawn_or_printed at 1. rewrite H1. simpl.
      now apply IH. }
    now rewrite Hnil.
Qed.

Lemma reading_of_present message d timestamp temperature :
  json_loads message = Ok (PyDict d) ->
  d !! "timestamp"%string = Some timestamp -> timestamp <> PyNone ->
  d !! "temperature"%string = Some temperature -> temperature <> PyNone ->
  reading_of message = Some (timestamp, temperature).
Proof.
  intros Hj Hts Nts Htemp Ntemp. unfold reading_of. rewrite Hj, Hts, Htemp.
  simpl. destruct timestamp, temperature; simpl; congruence.
Qed.

(** C10.  A message that decodes to an object with both fields present whose
    temperature does not order against a float (a string, a list, an object)
    is recorded before the comparison of line 181 raises: the timestamp and
    the temperature are appended and [total_messages] and [window_messages]
    are incremented.  The exception is caught and logged at error level (a
    [TypeError] when the threshold is configured); [high_temps_sum],
    [high_temp_count] and [window_start] keep their values, the clock is not
    read, and nothing is drawn or printed. *)
Theorem incomparable_temperature_is_half_recorded
    message d timestamp temperature rolling_window window_size st :
  json_loads message = Ok (PyDict d) ->
  d !! "timestamp"%string = Some timestamp -> timestamp <> PyNone ->
  d !! "temperature"%string = Some temperature -> temperature <> PyNone ->
  numeric_value temperature = None ->
  exists out e,
    process_message message rolling_window window_size st
      = (Ok rolling_window, recorded timestamp temperature st,
         out ++ [Log ERROR (error_text message e)])
    /\ forallb is_log out = true
    /\ (forall threshold,
          SMOKER_HIGH_TEMP_THRESHOLD_F = Ok threshold -> e = TypeError).
Proof.
  intros Hj Hts Nts Htemp Ntemp Hnum.
  destruct (process_message_accepted message rolling_window window_size st
              timestamp temperature
              (reading_of_present _ _ _ _ Hj Hts Nts Htemp Ntemp))
    as (data & Hdata & ->).
  unfold accepted_body, record_reading, get_high_temp_threshold, bind, lift,
    modify, log, emit, ret. simpl.
  destruct SMOKER_HIGH_TEMP_THRESHOLD_F as [thr|e0]; simpl.
  - unfold ge_float. rewrite Hnum. simpl.
    exists [Log DEBUG (Raw_message message);
            Log INFO (Processed_JSON_message data);
            Log INFO (High_temp_threshold thr)], TypeError.
    repeat split; reflexivity.
  - exists [Log DEBUG (Raw_message message);
            Log INFO (Processed_JSON_message data)], e0.
    repeat split; try reflexivity. discriminate.
Qed.

(** ** The periodic report *)

Lemma periodic_analytics_report_reports st :
  reports (output_of (periodic_analytics_report st)) = report_due st.
Proof.
  rewrite periodic_analytics_report_eq. unfold report_due.
  destruct SMOKER_ROLLING_WINDOW_SIZE as [size|e]; [|reflexivity].
  destruct (float_ge_int _ _); [|reflexivity].
  destruct (avg_high_temp st); reflexivity.
Qed.

Lemma In_reports ev out :
  In ev (reports out) <-> In ev out /\ is_report ev = true.
Proof. unfold reports. apply List.filter_In. Qed.

Lemma reports_app out1 out2 :
  reports (out1 ++ out2) = reports out1 ++ reports out2.
Proof. unfold reports. apply List.filter_app. Qed.

Lemma reports_of_logs out : forallb is_log out = true -> reports out = [].
Proof.
  induction out as [|ev out IH]; [reflexivity|]. simpl.
  intros H. apply andb_prop in H as [H1 H2].
  destruct ev; try discriminate. simpl. now apply IH.
Qed.

Lemma reports_of_charts out :
  forallb (fun ev => negb (is_report ev)) out = true -> reports out = [].
Proof.
  induction out as [|ev out IH]; [reflexivity|]. simpl.
  intros H. apply andb_prop in H as [H1 H2].
  destruct (is_report ev); [discriminate|]. now apply IH.
Qed.

(** The check of lines 189-198 assigns nothing but the window. *)
Lemma periodic_analytics_report_frame st total avg :
  In (Analytics total avg) (output_of (periodic_analytics_report st)) ->
  state_of (periodic_analytics_report st) = window_restarted st.
Proof.
  rewrite periodic_analytics_report_eq.
  destruct SMOKER_ROLLING_WINDOW_SIZE as [size|e]; [|intros []].
  destruct (float_ge_int (elapsed st) size);
    [|intros [H|[]]; discriminate].
  destruct (avg_high_temp st) as [a|e]; [|intros [H|[]]; discriminate].
  reflexivity.
Qed.

Lemma accepted_body_reports timestamp temperature st :
  reports (output_of (accepted_body timestamp temperature st))
  = match result_of (record_reading timestamp temperature st),
          result_of (update_chart (after_reading timestamp temperature st))
    with
    | Ok _, Ok _ => report_due (after_reading timestamp temperature st)
    | _, _ => []
    end.
Proof.
  unfold accepted_body, bind.
  destruct (record_reading_state timestamp temperature st)
    as (r & out & -> & Hout).
  apply reports_of_logs in Hout.
  destruct r as [u|e]; unfold result_of at 1; simpl; [|exact Hout].
  destruct (update_chart_state (after_reading timestamp temperature st))
    as (r & out' & -> & Hout').
  apply reports_of_charts in Hout'.
  destruct r as [u'|e]; unfold result_of at 1; simpl.
  - rewrite <- periodic_analytics_report_reports.
    destruct (periodic_analytics_report _) as [[r st'] out''].
    unfold output_of. simpl. rewrite !reports_app, Hout, Hout'. reflexivity.
  - unfold output_of. simpl. now rewrite reports_app, Hout, Hout'.
Qed.

Lemma accepted_body_state timestamp temperature st :
  state_of (accepted_body timestamp temperature st)
  = match result_of (record_reading timestamp temperature st),
          result_of (update_chart (after_reading timestamp temperature st))
    with
    | Ok _, Ok _ =>
        state_of (periodic_analytics_report
                    (after_reading timestamp temperature st))
    | _, _ => after_reading timestamp temperature st
    end.
Proof.
  unfold accepted_body, bind.
  destruct (record_reading_state timestamp temperature st)
    as (r & out & -> & _).
  destruct r as [u|e]; unfold result_of at 1; simpl; [|reflexivity].
  destruct (update_chart_state (after_reading timestamp temperature st))
    as (r & out' & -> & _).
  destruct r as [u'|e]; unfold result_of at 1; simpl; [|reflexivity].
  now destruct (periodic_analytics_report _) as [[r st'] out''].
Qed.

Lemma process_message_state message rolling_window window_size st :
  state_of (process_message message rolling_window window_size st)
  = match reading_of message with
    | Some (timestamp, temperature) =>
        state_of (accepted_body timestamp temperature st)
    | None => st
    end.
Proof.
  destruct (reading_of message) as [[ts temp]|] eqn:E.
  - destruct (process_message_accepted message rolling_window window_size st
                ts temp E) as (data & _ & ->).
    now destruct (accepted_body ts temp st) as [[r st'] out].
  - now destruct (process_message_rejected message rolling_window window_size
                    st E) as (out & -> & _).
Qed.

Lemma after_reading_clock timestamp temperature st :
  time_calls (after_reading timestamp temperature st) = time_calls st
  /\ window_start (after_reading timestamp temperature st) = window_start st.
Proof.
  unfold after_reading.
  destruct SMOKER_HIGH_TEMP_THRESHOLD_F as [thr|e]; [|now simpl].
  destruct (ge_float temperature thr) as [[|]|e]; try now simpl.
  destruct (float_add (high_temps_sum st) temperature); now simpl.
Qed.

Lemma process_message_reports message rolling_window window_size st :
  reports (output_of (process_message message rolling_window window_size st))
  = match reading_of message with
    | Some (timestamp, temperature) =>
        reports (output_of (accepted_body timestamp temperature st))
    | None => []
    end.
Proof.
  destruct (reading_of message) as [[ts temp]|] eqn:E.
  - destruct (process_message_accepted message rolling_window window_size st
                ts temp E) as (data & _ & ->).
    destruct (accepted_body ts temp st) as [[r st'] out].
    unfold output_of. simpl.
    change (reports (out ++ match r with
                            | Ok _ => []
                            | Raise e => [Log ERROR (error_text message e)]
                            end) = reports out).
    rewrite reports_app. destruct r; simpl; now rewrite app_nil_r.
  - destruct (process_message_rejected message rolling_window window_size st E)
      as (out & -> & Hlog & _).
    now apply reports_of_logs.
Qed.

(** A block printed while a message is handled, traced to its cause. *)
Lemma process_message_report_inv message rolling_window window_size st
    total avg :
  In (Analytics total avg)
     (output_of (process_message message rolling_window window_size st)) ->
  exists timestamp temperature size,
    reading_of message = Some (timestamp, temperature)
    /\ SMOKER_ROLLING_WINDOW_SIZE = Ok size
    /\ float_ge_int (elapsed (after_reading timestamp temperature st)) size
       = true
    /\ total = total_messages (after_reading timestamp temperature st)
    /\ avg_high_temp (after_reading timestamp temperature st) = Ok avg
    /\ state_of (process_message message rolling_window window_size st)
       = window_restarted (after_reading timestamp temperature st).
Proof.
  intros Hin.
  assert (Hin' : In (Analytics total avg)
                    (reports (output_of (process_message message
                                           rolling_window window_size st))))
    by (apply In_reports; now split).
  rewrite process_message_reports in Hin'.
  rewrite process_message_state.
  destruct (reading_of message) as [[ts temp]|]; [|destruct Hin'].
  rewrite accepted_body_reports in Hin'. rewrite accepted_body_state.
  destruct (result_of (record_reading ts temp st)); [|destruct Hin'].
  destruct (result_of (update_chart _)); [|destruct Hin'].
  rewrite <- periodic_analytics_report_reports in Hin'.
  apply In_reports in Hin' as [Hin' _].
  rewrite (periodic_analytics_report_frame _ _ _ Hin').
  rewrite periodic_analytics_report_eq in Hin'.
  destruct SMOKER_ROLLING_WINDOW_SIZE as [size|e]; [|destruct Hin'].
  destruct (float_ge_int _ size) eqn:Hge;
    [|destruct Hin' as [H|[]]; discriminate].
  destruct (avg_high_temp (after_reading ts temp st)) as [avg'|e'] eqn:Ha;
    [|destruct Hin' as [H|[]]; discriminate].
  destruct Hin' as [Heq|[Heq|[]]]; [discriminate|]. injection Heq as <- <-.
  exists ts, temp, size. repeat split; try assumption; reflexivity.
Qed.

(** C4.  When a call of [process_message] prints the analytics block, the
    elapsed time has reached the window size, the block shows
    [total_messages], and the state the call leaves is the state in which
    the reading was recorded with only the window restarted: [window_start]
    is the next reading of the clock and the per-window counter
    [window_messages] is zero, while [total_messages], [high_temps_sum],
    [high_temp_count] and the history keep their values; the messages that
    follow accumulate onto them as if nothing had been printed. *)
Theorem report_restarts_only_the_window
    message rolling_window window_size st total avg :
  In (Analytics total avg)
     (output_of (process_message message rolling_window window_size st)) ->
  exists timestamp temperature size,
    reading_of message = Some (timestamp, temperature)
    /\ SMOKER_ROLLING_WINDOW_SIZE = Ok size
    /\ let before := after_reading timestamp temperature st in
       let st' :=
         state_of (process_message message rolling_window window_size st) in
       float_ge_int (elapsed before) size = true
       /\ total = total_messages before
       /\ st' = window_restarted before
       /\ total_messages st' = total_messages before
       /\ high_temps_sum st' = high_temps_sum before
       /\ high_temp_count st' = high_temp_count before
       /\ timestamps st' = timestamps before
       /\ temperatures st' = temperatures before
       /\ window_start st' = time_time (S (time_calls st))
       /\ window_messages st' = 0
       /\ (forall messages rw ws,
             accumulated (state_of (poll messages rw ws st'))
             = accumulated (fold_left accumulate (readings messages) before)).
Proof.
  intros Hin.
  apply process_message_report_inv in Hin
    as (ts & temp & size & E & Hsize & Hge & Htot & _ & Hst).
  exists ts, temp, size. split; [exact E|]. split; [exact Hsize|].
  intros before st'. subst st'. rewrite Hst. fold before.
  split; [exact Hge|]. split; [exact Htot|].
  do 6 (split; [reflexivity|]).
  split; [simpl; subst before;
          now destruct (after_reading_clock ts temp st) as [-> _]|].
  split; [reflexivity|].
  intros messages rw ws. rewrite poll_accumulated.
  now apply fold_accumulate_accumulated.
Qed.

Lemma readings_app before after :
  readings (before ++ after) = readings before ++ readings after.
Proof. unfold readings. apply omap_app. Qed.

Lemma process_message_reports_bound message rolling_window window_size st :
  (length (reports (output_of (process_message message rolling_window
                                 window_size st)))
   <= length (readings [message]))%nat.
Proof.
  rewrite process_message_reports. unfold readings. simpl.
  destruct (reading_of message) as [[ts temp]|]; simpl; [|lia].
  rewrite accepted_body_reports.
  destruct (result_of (record_reading ts temp st)); simpl; [|lia].
  destruct (result_of (update_chart _)); simpl; [|lia].
  unfold report_due.
  destruct SMOKER_ROLLING_WINDOW_SIZE; simpl; [|lia].
  destruct (float_ge_int _ _); simpl; [|lia].
  destruct (avg_high_temp _); simpl; lia.
Qed.

Lemma poll_reports_bound messages : forall rolling_window window_size st,
  (length (reports (output_of (poll messages rolling_window window_size st)))
   <= length (readings messages))%nat.
Proof.
  induction messages as [|m ms IH]; intros rw ws st; [simpl; lia|].
  assert (E : readings (m :: ms) = readings [m] ++ readings ms)
    by apply (readings_app [m] ms).
  rewrite E, length_app, poll_cons. clear E.
  unfold output_of at 1. cbn [snd reports List.filter is_report].
  fold (reports (output_of (process_message m rw ws st)
                 ++ output_of (poll ms rw ws
                                 (state_of (process_message m rw ws st))))).
  rewrite reports_app, length_app.
  pose proof (process_message_reports_bound m rw ws st).
  pose proof (IH rw ws (state_of (process_message m rw ws st))).
  lia.
Qed.

(** C7, as the code has it.  The analytics block is printed only while a
    message is being handled, at most once per message, and only for an
    accepted reading: a message that is rejected prints nothing, however
    much time has elapsed, and a run prints no more blocks than it has
    accepted readings.  For an accepted reading the block is printed exactly
    when the reading was recorded and the chart redrawn without an
    exception, the window size is configured, the time elapsed since
    [window_start] at that point is at least the window size, and the
    average can be computed; the block then shows the new
    [total_messages]. *)
Theorem report_only_while_handling_a_reading
    message rolling_window window_size st :
  let out := output_of (process_message message rolling_window window_size st) in
  (length (reports out) <= 1)%nat
  /\ (reading_of message = None -> reports out = [])
  /\ (forall total avg,
        In (Analytics total avg) out ->
        exists timestamp temperature size,
          reading_of message = Some (timestamp, temperature)
          /\ SMOKER_ROLLING_WINDOW_SIZE = Ok size
          /\ float_ge_int (elapsed (after_reading timestamp temperature st))
                          size = true
          /\ total = total_messages st + 1
          /\ avg_high_temp (after_reading timestamp temperature st) = Ok avg)
  /\ (forall timestamp temperature size avg,
        reading_of message = Some (timestamp, temperature) ->
        result_of (record_reading timestamp temperature st) = Ok tt ->
        result_of (update_chart (after_reading timestamp temperature st))
          = Ok tt ->
        SMOKER_ROLLING_WINDOW_SIZE = Ok size ->
        float_ge_int (elapsed (after_reading timestamp temperature st)) size
          = true ->
        avg_high_temp (after_reading timestamp temperature st) = Ok avg ->
        reports out = [Analytics (total_messages st + 1) avg])
  /\ (forall messages,
        (length (reports (output_of (poll messages rolling_window window_size
                                       st)))
         <= length (readings messages))%nat).
Proof.
  intros out.
  pose proof (process_message_reports message rolling_window window_size st)
    as H.
  fold out in H.
  split; [|split; [|split; [|split]]].
  - pose proof (process_message_reports_bound message rolling_window
                  window_size st) as Hle.
    fold out in Hle. unfold readings in Hle. simpl in Hle.
    destruct (reading_of message); simpl in Hle; lia.
  - intros E. now rewrite H, E.
  - intros total avg Hin. subst out.
    apply process_message_report_inv in Hin
      as (ts & temp & size & E & Hsize & Hge & Htot & Havg & _).
    exists ts, temp, size. repeat split; try assumption.
    now destruct (after_reading_history ts temp st) as (_ & _ & <-).
  - intros ts temp size avg E Hrec Hchart Hsize Hge Havg.
    rewrite H, E, accepted_body_reports, Hrec, Hchart.
    unfold report_due. rewrite Hsize, Hge, Havg.
    now destruct (after_reading_history ts temp st) as (_ & _ & ->).
  - intros messages. apply poll_reports_bound.
Qed.

(** ** High-temperature statistics *)

Lemma has_float_value_ge temperature threshold :
  has_float_value temperature ->
  ge_float temperature threshold = Ok (is_high threshold temperature).
Proof.
  intros [f Hf]. unfold is_high, ge_float.
  destruct temperature; simpl in *; try discriminate; reflexivity.
Qed.

Lemma has_float_value_add temperature sum :
  has_float_value temperature ->
  float_add sum temperature = Ok (fadd sum (float_operand temperature)).
Proof.
  intros [f Hf]. unfold float_add, float_operand. now rewrite Hf.
Qed.

Lemma fold_accumulate_high threshold rs :
  SMOKER_HIGH_TEMP_THRESHOLD_F = Ok threshold ->
  Forall has_float_value (map snd rs) ->
  forall st,
    high_temp_count (fold_left accumulate rs st)
    = high_temp_count st
      + Z.of_nat (length (high_temperatures threshold (map snd rs)))
    /\ high_temps_sum (fold_left accumulate rs st)
       = float_sum (high_temps_sum st)
           (map float_operand (high_temperatures threshold (map snd rs))).
Proof.
  intros Hthr. induction rs as [|[ts temp] rs IH]; intros Hall st; simpl.
  - split; [lia|reflexivity].
  - simpl in Hall. apply Forall_cons in Hall as [Htemp Hall].
    destruct (IH Hall (accumulate st (ts, temp))) as [-> ->].
    unfold accumulate, after_reading. simpl.
    rewrite Hthr, (has_float_value_ge _ _ Htemp).
    destruct (is_high threshold temp); simpl.
    + rewrite (has_float_value_add _ _ Htemp). simpl. split; [lia|reflexivity].
    + split; [lia|reflexivity].
Qed.

Lemma avg_high_temp_value st avg :
  avg_high_temp st = Ok avg ->
  avg = if high_temp_count st =? 0 then fzero
        else fdiv (high_temps_sum st) (float_of_Z (high_temp_count st)).
Proof.
  unfold avg_high_temp, float_truediv_int, int_to_float.
  destruct (high_temp_count st =? 0); [congruence|].
  destruct (float_of_Z (high_temp_count st)); congruence.
Qed.

(** A block printed during a run, traced to the message that caused it. *)
Lemma poll_report_inv messages : forall rolling_window window_size st total avg,
  In (Analytics total avg)
     (output_of (poll messages rolling_window window_size st)) ->
  exists prefix message suffix timestamp temperature,
    messages = prefix ++ message :: suffix
    /\ reading_of message = Some (timestamp, temperature)
    /\ let st1 := after_reading timestamp temperature
                    (state_of (poll prefix rolling_window window_size st)) in
       total = total_messages st1 /\ avg_high_temp st1 = Ok avg.
Proof.
  induction messages as [|m ms IH]; intros rw ws st total avg Hin.
  - destruct Hin.
  - rewrite poll_cons in Hin. unfold output_of at 1 in Hin. simpl in Hin.
    destruct Hin as [Hin|Hin]; [discriminate|].
    apply in_app_or in Hin as [Hin|Hin].
    + apply process_message_report_inv in Hin
        as (ts & temp & size & E & _ & _ & Htot & Havg & _).
      exists [], m, ms, ts, temp. repeat split; assumption.
    + apply IH in Hin
        as (prefix & message & suffix & ts & temp & -> & E & Htot & Havg).
      exists (m :: prefix), message, suffix, ts, temp.
      split; [reflexivity|]. split; [exact E|].
      rewrite poll_cons. unfold state_of at 1. simpl. now split.
Qed.

Lemma accumulated_after_prefix prefix message timestamp temperature
    rolling_window window_size st :
  reading_of message = Some (timestamp, temperature) ->
  accumulated (after_reading timestamp temperature
                 (state_of (poll prefix rolling_window window_size st)))
  = accumulated (fold_left accumulate (readings (prefix ++ [message])) st).
Proof.
  intros E. rewrite readings_app, fold_left_app.
  unfold readings at 2. simpl. rewrite E. simpl. unfold accumulate at 1. simpl.
  apply after_reading_accumulated, poll_accumulated.
Qed.

(** C2, as the code has it.  With the threshold configured, for messages
    whose accepted readings carry temperatures that are floats or integers
    that convert to a float, handled from the state the module is loaded in:
    [high_temp_count] is the number of temperatures at or above the
    threshold, [high_temps_sum] is their sum, formed by float additions in
    order of arrival from 0.0, and every analytics block printed during the
    run shows, for the messages handled so far, their number of accepted
    readings and the sum divided by the count, or 0.0 when the count is
    zero. *)
Theorem high_temperature_statistics threshold messages
    rolling_window window_size :
  SMOKER_HIGH_TEMP_THRESHOLD_F = Ok threshold ->
  Forall has_float_value (map snd (readings messages)) ->
  let run := poll messages rolling_window window_size initial_state in
  let temps := map snd (readings messages) in
  high_temp_count (state_of run) = expected_count threshold temps
  /\ high_temps_sum (state_of run) = expected_sum threshold temps
  /\ (forall avg, avg_high_temp (state_of run) = Ok avg ->
                  avg = expected_average threshold temps)
  /\ (forall total avg,
        In (Analytics total avg) (output_of run) ->
        exists prefix suffix,
          messages = prefix ++ suffix
          /\ total = Z.of_nat (length (readings prefix))
          /\ avg = expected_average threshold (map snd (readings prefix))).
Proof.
  intros Hthr Hall run temps.
  assert (Hspec : forall ms st,
             Forall has_float_value (map snd (readings ms)) ->
             accumulated st
             = accumulated (fold_left accumulate (readings ms) initial_state) ->
             total_messages st = Z.of_nat (length (readings ms))
             /\ high_temp_count st
                = expected_count threshold (map snd (readings ms))
             /\ high_temps_sum st
                = expected_sum threshold (map snd (readings ms))
             /\ forall avg, avg_high_temp st = Ok avg ->
                  avg = expected_average threshold (map snd (readings ms))).
  { intros ms st Hms Hacc. unfold accumulated in Hacc.
    injection Hacc as _ _ Htot Hsum Hcount.
    destruct (fold_accumulate_high threshold (readings ms) Hthr Hms
                initial_state) as [Ec Es].
    destruct (fold_accumulate_history (readings ms) initial_state)
      as (_ & _ & Et).
    rewrite Ec in Hcount. rewrite Es in Hsum. rewrite Et in Htot.
    simpl in Hcount, Hsum, Htot.
    assert (Hc : high_temp_count st
                 = expected_count threshold (map snd (readings ms)))
      by exact Hcount.
    assert (Hs : high_temps_sum st
                 = expected_sum threshold (map snd (readings ms)))
      by exact Hsum.
    split; [exact Htot|]. split; [exact Hc|]. split; [exact Hs|].
    intros avg Havg. apply avg_high_temp_value in Havg.
    unfold expected_average. now rewrite <- Hc, <- Hs. }
  destruct (Hspec messages (state_of run) Hall
              (poll_accumulated messages rolling_window window_size
                 initial_state)) as (_ & Hc & Hs & Ha).
  split; [exact Hc|]. split; [exact Hs|]. split; [exact Ha|].
  intros total avg Hin. subst run.
  apply poll_report_inv in Hin
    as (prefix & message & suffix & ts & temp & -> & E & Htot & Havg).
  exists (prefix ++ [message]), suffix.
  split; [now rewrite <- app_assoc|].
  assert (Hpre : Forall has_float_value
                   (map snd (readings (prefix ++ [message])))).
  { replace (prefix ++ message :: suffix)
      with ((prefix ++ [message]) ++ suffix) in Hall
      by now rewrite <- app_assoc.
    rewrite readings_app, map_app in Hall.
    now apply Forall_app in Hall as [Hall _]. }
  destruct (Hspec (prefix ++ [message]) _ Hpre
              (accumulated_after_prefix prefix message ts temp
                 rolling_window window_size initial_state E))
    as (Ht & _ & _ & Hav).
  split; [congruence|]. now apply Hav.
Qed.

(** ** Bar colours and the threshold *)

(** *** The comparison by value on binary64 numbers *)

Lemma digits2_pos_bounds m :
  2 ^ (Z.pos (digits2_pos m) - 1) <= Z.pos m < 2 ^ Z.pos (digits2_pos m).
Proof.
  induction m as [p IH|p IH|]; simpl digits2_pos.
  - rewrite Pos2Z.inj_succ.
    replace (Z.succ (Z.pos (digits2_pos p)) - 1) with (Z.succ (Z.pos (digits2_pos p) - 1)) by lia.
    rewrite !Z.pow_succ_r by lia. lia.
  - rewrite Pos2Z.inj_succ.
    replace (Z.succ (Z.pos (digits2_pos p)) - 1) with (Z.succ (Z.pos (digits2_pos p) - 1)) by lia.
    rewrite !Z.pow_succ_r by lia. lia.
  - simpl. lia.
Qed.

Lemma bounded_mantissa m e :
  bounded prec emax m e = true ->
  Z.pos m < 2 ^ 53 /\ (-1074 <= e) /\ (-1074 < e -> 2 ^ 52 <= Z.pos m).
Proof.
  unfold bounded, canonical_mantissa, fexp, emin, prec, emax.
  intros H. apply andb_prop in H as [H _]. apply Z.eqb_eq in H.
  pose proof (digits2_pos_bounds m) as [Hlo Hhi].
  set (d := Z.pos (digits2_pos m)) in *.
  assert (Hd : d <= 53) by lia.
  split.
  - eapply Z.lt_le_trans; [exact Hhi|]. apply Z.pow_le_mono_r; lia.
  - split; [lia|]. intros He. assert (d = 53) by lia.
    replace (52) with (d - 1) by lia. exact Hlo.
Qed.

Lemma dyadic_compare_same_exponent m1 m2 e :
  dyadic_compare m1 e m2 e = (m1 ?= m2).
Proof.
  unfold dyadic_compare. rewrite Z.min_id, Z.sub_diag. simpl. now rewrite !Z.mul_1_r.
Qed.

Lemma dyadic_compare_lt m1 e1 m2 e2 :
  0 < m1 < 2 ^ 53 -> 2 ^ 52 <= m2 -> e1 < e2 ->
  dyadic_compare m1 e1 m2 e2 = Lt /\ dyadic_compare m2 e2 m1 e1 = Gt
  /\ dyadic_compare (- m1) e1 (- m2) e2 = Gt /\ dyadic_compare (- m2) e2 (- m1) e1 = Lt.
Proof.
  intros H1 H2 He. unfold dyadic_compare.
  rewrite (Z.min_l e1 e2), (Z.min_r e2 e1) by lia. rewrite Z.sub_diag. simpl (2 ^ 0).
  rewrite !Z.mul_1_r.
  assert (Hp : 2 <= 2 ^ (e2 - e1)).
  { change 2 with (2 ^ 1) at 1. apply Z.pow_le_mono_r; lia. }
  assert (Hlt : m1 < m2 * 2 ^ (e2 - e1)) by nia.
  rewrite Z.compare_lt_iff, Z.compare_gt_iff, Z.compare_gt_iff, Z.compare_lt_iff.
  repeat split; nia.
Qed.

Lemma dyadic_compare_signs m1 e1 m2 e2 :
  m1 < 0 -> 0 <= m2 -> dyadic_compare m1 e1 m2 e2 = Lt /\ dyadic_compare m2 e2 m1 e1 = Gt.
Proof.
  intros H1 H2. unfold dyadic_compare.
  assert (P1 : 0 < 2 ^ (e1 - Z.min e1 e2)) by (apply Z.pow_pos_nonneg; lia).
  assert (P2 : 0 < 2 ^ (e2 - Z.min e1 e2)) by (apply Z.pow_pos_nonneg; lia).
  assert (P3 : 0 < 2 ^ (e1 - Z.min e2 e1)) by (apply Z.pow_pos_nonneg; lia).
  assert (P4 : 0 < 2 ^ (e2 - Z.min e2 e1)) by (apply Z.pow_pos_nonneg; lia).
  rewrite Z.compare_lt_iff, Z.compare_gt_iff. split; nia.
Qed.

Lemma dyadic_compare_zero_pos m e e0 :
  0 < m -> dyadic_compare 0 e0 m e = Lt /\ dyadic_compare m e 0 e0 = Gt.
Proof.
  intros H. unfold dyadic_compare.
  assert (P2 : 0 < 2 ^ (e - Z.min e0 e)) by (apply Z.pow_pos_nonneg; lia).
  assert (P3 : 0 < 2 ^ (e - Z.min e e0)) by (apply Z.pow_pos_nonneg; lia).
  rewrite Z.compare_lt_iff, Z.compare_gt_iff. split; nia.
Qed.

(** On valid binary64 numbers the comparison by value is the IEEE
    comparison. *)
Lemma SFcompare_by_value f1 f2 :
  valid_binary prec emax f1 = true -> valid_binary prec emax f2 = true ->
  SFcompare f1 f2 = xnum_compare (xnum_of_float f1) (xnum_of_float f2).
Proof.
  destruct f1 as [s1|s1| |s1 m1 e1], f2 as [s2|s2| |s2 m2 e2];
    cbn [valid_binary SFcompare xnum_of_float xnum_compare cond_Zopp];
    intros V1 V2; try reflexivity;
    try (destruct s1, s2; reflexivity).
  - destruct s2; cbn [cond_Zopp Z.opp].
    + now destruct (dyadic_compare_signs (- Z.pos m2) e2 0 0) as [_ ->].
    + now destruct (dyadic_compare_zero_pos (Z.pos m2) e2 0) as [-> _].
  - destruct s1; cbn [cond_Zopp Z.opp].
    + now destruct (dyadic_compare_signs (- Z.pos m1) e1 0 0) as [-> _].
    + now destruct (dyadic_compare_zero_pos (Z.pos m1) e1 0) as [_ ->].
  - apply bounded_mantissa in V1 as (B1 & L1 & N1).
    apply bounded_mantissa in V2 as (B2 & L2 & N2).
    f_equal. destruct s1, s2; cbn [cond_Zopp].
    + destruct (Z.compare_spec e1 e2) as [->|He|He].
      * rewrite dyadic_compare_same_exponent, Pos.compare_cont_spec.
        rewrite Z.compare_opp, (Z.compare_antisym (Z.pos m1) (Z.pos m2)).
        simpl. now destruct (m1 ?= m2)%positive.
      * symmetry.
        apply (dyadic_compare_lt (Z.pos m1) e1 (Z.pos m2) e2); lia.
      * symmetry.
        apply (dyadic_compare_lt (Z.pos m2) e2 (Z.pos m1) e1); lia.
    + symmetry. apply dyadic_compare_signs; lia.
    + symmetry. apply dyadic_compare_signs; lia.
    + destruct (Z.compare_spec e1 e2) as [->|He|He].
      * rewrite dyadic_compare_same_exponent, Pos.compare_cont_spec.
        simpl. now destruct (m1 ?= m2)%positive.
      * symmetry.
        apply (dyadic_compare_lt (Z.pos m1) e1 (Z.pos m2) e2); lia.
      * symmetry.
        apply (dyadic_compare_lt (Z.pos m2) e2 (Z.pos m1) e1); lia.
Qed.

(** *** Order of the values *)

Lemma Z_compare_scale a b p : 0 < p -> (a * p ?= b * p) = (a ?= b).
Proof.
  intros Hp. destruct (Z.compare_spec a b) as [->|H|H].
  - apply Z.compare_refl.
  - apply Z.compare_lt_iff. now apply Z.mul_lt_mono_pos_r.
  - apply Z.compare_gt_iff. now apply Z.mul_lt_mono_pos_r.
Qed.

Lemma dyadic_compare_scaled m1 e1 m2 e2 e0 :
  e0 <= e1 -> e0 <= e2 ->
  dyadic_compare m1 e1 m2 e2 = (m1 * 2 ^ (e1 - e0) ?= m2 * 2 ^ (e2 - e0)).
Proof.
  intros H1 H2. unfold dyadic_compare.
  set (e := Z.min e1 e2).
  assert (He1 : e <= e1) by (subst e; lia).
  assert (He2 : e <= e2) by (subst e; lia).
  assert (He0 : e0 <= e) by (subst e; lia).
  replace (e1 - e0) with ((e1 - e) + (e - e0)) by lia.
  replace (e2 - e0) with ((e2 - e) + (e - e0)) by lia.
  rewrite !Z.pow_add_r by lia. rewrite !Z.mul_assoc.
  symmetry. apply Z_compare_scale. apply Z.pow_pos_nonneg; lia.
Qed.

Lemma dyadic_lt_le_trans x ex a ea b eb :
  dyadic_compare x ex a ea = Lt ->
  dyadic_compare a ea b eb <> Gt ->
  dyadic_compare x ex b eb = Lt.
Proof.
  set (e0 := Z.min ex (Z.min ea eb)).
  rewrite (dyadic_compare_scaled x ex a ea e0) by (subst e0; lia).
  rewrite (dyadic_compare_scaled a ea b eb e0) by (subst e0; lia).
  rewrite (dyadic_compare_scaled x ex b eb e0) by (subst e0; lia).
  rewrite !Z.compare_lt_iff, Z.compare_le_iff. lia.
Qed.

Lemma xnum_below_le x a b :
  xnum_ge x a = false -> xnum_le a b = true -> xnum_ge x b = false.
Proof.
  unfold xnum_ge, xnum_le.
  destruct x as [|sx|mx ex], a as [|sa|ma ea], b as [|sb|mb eb]; simpl;
    try reflexivity; try discriminate;
    try (destruct sx; discriminate || reflexivity);
    try (destruct sa; discriminate || reflexivity);
    try (destruct sb; discriminate || reflexivity);
    try (destruct sx, sa; discriminate || reflexivity);
    try (destruct sx, sb; discriminate || reflexivity);
    try (destruct sa, sb; discriminate || reflexivity);
    try (destruct sx, sa, sb; discriminate || reflexivity).
  intros H1 H2.
  assert (Hlt : dyadic_compare mx ex ma ea = Lt)
    by (destruct (dyadic_compare mx ex ma ea); congruence).
  assert (Hle : dyadic_compare ma ea mb eb <> Gt)
    by (destruct (dyadic_compare ma ea mb eb); congruence).
  now rewrite (dyadic_lt_le_trans _ _ _ _ _ _ Hlt Hle).
Qed.

Lemma ge_float_raise_independent v t1 t2 e :
  ge_float v t1 = Raise e -> ge_float v t2 = Raise e.
Proof. unfold ge_float. destruct (numeric_value v); congruence. Qed.

Lemma ge_float_monotone v t1 t2 :
  fle t1 t2 = true -> ge_float v t1 = Ok false -> ge_float v t2 = Ok false.
Proof.
  unfold ge_float, fle. intros Hle.
  destruct (numeric_value v) as [x|]; [|discriminate].
  intros H. injection H as H. f_equal. eapply xnum_below_le; eassumption.
Qed.

(** C8.  For thresholds [t1 <= t2] and one list of temperatures, when the
    comprehension of line 128 yields colours under [t1] it yields colours
    under [t2], one per temperature in both cases, and every bar that is
    blue under [t1] is blue under [t2]; so a bar that is red under [t2] was
    red under [t1]. *)
Theorem bar_colors_monotone_in_threshold temps : forall t1 t2 colors1,
  fle t1 t2 = true ->
  bar_colors t1 temps = Ok colors1 ->
  exists colors2,
    bar_colors t2 temps = Ok colors2
    /\ length colors1 = length temps
    /\ length colors2 = length temps
    /\ (forall i : nat, colors1 !! i = Some "blue"%string ->
                        colors2 !! i = Some "blue"%string)
    /\ (forall i : nat, colors2 !! i = Some "red"%string ->
                        colors1 !! i = Some "red"%string).
Proof.
  induction temps as [|temp temps IH]; intros t1 t2 colors1 Hle H1; simpl in *.
  - injection H1 as <-. exists []. repeat split; intros i Hi; destruct i; discriminate.
  - destruct (ge_float temp t1) as [hot1|e] eqn:G1; [|discriminate].
    destruct (bar_colors t1 temps) as [cs1|e] eqn:B1; [|discriminate].
    injection H1 as <-.
    destruct (IH t1 t2 cs1 Hle B1) as (cs2 & -> & L1 & L2 & Hb & Hr).
    assert (G2 : exists hot2, ge_float temp t2 = Ok hot2
                              /\ (hot1 = false -> hot2 = false)).
    { destruct hot1.
      - unfold ge_float in *. destruct (numeric_value temp); [|discriminate].
        eexists; split; [reflexivity|discriminate].
      - exists false. split; [|reflexivity].
        now apply (ge_float_monotone temp t1 t2). }
    destruct G2 as (hot2 & -> & Hhot).
    eexists. split; [reflexivity|]. simpl.
    split; [now rewrite L1|]. split; [now rewrite L2|].
    split; intros [|i] Hi; simpl in *; try (now apply Hb); try (now apply Hr).
    + destruct hot1; [discriminate|]. now rewrite Hhot.
    + destruct hot2; [|discriminate]. destruct hot1; [reflexivity|].
      now specialize (Hhot eq_refl).
Qed.

(** ** The rolling window *)

(** C6, as the code has it.  [main] creates the rolling window empty, with
    the configured window size as its capacity, and hands it to every call
    of [process_message]; no call appends to it or reads it: a run that
    returns leaves it empty, a call returns the deque it was given, and what
    a call does to the state and shows does not depend on the deque. *)
Theorem rolling_window_is_never_used messages stop st :
  (forall rolling_window,
      result_of (main messages stop st) = Ok rolling_window ->
      items rolling_window = []
      /\ SMOKER_ROLLING_WINDOW_SIZE = Ok (maxlen rolling_window))
  /\ (forall message window_size st1 (rw1 rw2 : deque),
         result_of (process_message message rw1 window_size st1) = Ok rw1
         /\ state_of (process_message message rw1 window_size st1)
            = state_of (process_message message rw2 window_size st1)
         /\ output_of (process_message message rw1 window_size st1)
            = output_of (process_message message rw2 window_size st1)).
Proof.
  split.
  - intros rw. rewrite main_result.
    destruct SMOKER_ROLLING_WINDOW_SIZE as [size|e]; [|discriminate].
    unfold deque_new. destruct (size <? 0); [discriminate|].
    intros H. injection H as <-. now split.
  - intros message ws st1 rw1 rw2.
    split; [apply process_message_returns|].
    unfold process_message, bind.
    destruct (try_except _ _ st1) as [[[u|e] st2] out]; now split.
Qed.

(** ** The chart *)

Lemma charts_app out1 out2 : charts (out1 ++ out2) = charts out1 ++ charts out2.
Proof. unfold charts. apply List.filter_app. Qed.

Lemma charts_of_logs out : forallb is_log out = true -> charts out = [].
Proof.
  induction out as [|ev out IH]; [reflexivity|]. simpl.
  intros H. apply andb_prop in H as [H1 H2].
  destruct ev; try discriminate. simpl. now apply IH.
Qed.

Lemma In_charts ev out :
  In ev (charts out) <-> In ev out /\ is_chart ev = true.
Proof. unfold charts. apply List.filter_In. Qed.

Lemma update_chart_eq st :
  update_chart st =
    match SMOKER_HIGH_TEMP_THRESHOLD_F with
    | Raise e => (Raise e, st, [])
    | Ok threshold =>
        match bar_colors threshold (temperatures st) with
        | Raise e =>
            (Raise e, st, [Log INFO (High_temp_threshold threshold)])
        | Ok colors =>
            match pyplot (timestamps st) (temperatures st) colors with
            | Some e =>
                (Raise e, st, [Log INFO (High_temp_threshold threshold)])
            | None =>
                (Ok tt, st,
                 [Log INFO (High_temp_threshold threshold);
                  Bar_chart (timestamps st) (temperatures st) colors])
            end
        end
    end.
Proof.
  run_M. destruct SMOKER_HIGH_TEMP_THRESHOLD_F as [thr|e]; simpl; [|reflexivity].
  destruct (bar_colors thr (temperatures st)) as [cs|e]; simpl; [|reflexivity].
  now destruct (pyplot (timestamps st) (temperatures st) cs).
Qed.

Lemma update_chart_charts st :
  charts (output_of (update_chart st)) = chart_due st
  /\ (forall u, result_of (update_chart st) = Ok u -> chart_due st <> []).
Proof.
  rewrite update_chart_eq. unfold chart_due.
  destruct SMOKER_HIGH_TEMP_THRESHOLD_F as [thr|e]; [|now split].
  destruct (bar_colors thr (temperatures st)) as [cs|e]; [|now split].
  now destruct (pyplot (timestamps st) (temperatures st) cs).
Qed.

Lemma periodic_analytics_report_charts st :
  charts (output_of (periodic_analytics_report st)) = [].
Proof.
  rewrite periodic_analytics_report_eq.
  destruct SMOKER_ROLLING_WINDOW_SIZE as [size|e]; [|reflexivity].
  destruct (float_ge_int _ _); [|reflexivity].
  now destruct (avg_high_temp st).
Qed.

Lemma accepted_body_charts timestamp temperature st :
  charts (output_of (accepted_body timestamp temperature st))
  = match result_of (record_reading timestamp temperature st) with
    | Ok _ => chart_due (after_reading timestamp temperature st)
    | Raise _ => []
    end.
Proof.
  unfold accepted_body, bind.
  destruct (record_reading_state timestamp temperature st)
    as (r & out & -> & Hout).
  apply charts_of_logs in Hout.
  destruct r as [u|e]; unfold result_of at 1; simpl; [|exact Hout].
  destruct (update_chart_charts (after_reading timestamp temperature st))
    as [Hc _].
  pose proof (periodic_analytics_report_charts
                (after_reading timestamp temperature st)) as Hp.
  destruct (update_chart_state (after_reading timestamp temperature st))
    as (r & out' & E & _).
  rewrite E in Hc |- *. unfold output_of in Hc. simpl in Hc.
  destruct r as [u'|e]; simpl.
  - destruct (periodic_analytics_report _) as [[r st'] out''].
    unfold output_of in *. simpl in *.
    now rewrite !charts_app, Hout, Hc, Hp, app_nil_r.
  - unfold output_of. simpl. now rewrite charts_app, Hout, Hc.
Qed.

Lemma process_message_charts message rolling_window window_size st :
  charts (output_of (process_message message rolling_window window_size st))
  = match reading_of message with
    | Some (timestamp, temperature) =>
        charts (output_of (accepted_body timestamp temperature st))
    | None => []
    end.
Proof.
  destruct (reading_of message) as [[ts temp]|] eqn:E.
  - destruct (process_message_accepted message rolling_window window_size st
                ts temp E) as (data & _ & ->).
    destruct (accepted_body ts temp st) as [[r st'] out].
    unfold output_of. simpl.
    change (charts (out ++ match r with
                           | Ok _ => []
                           | Raise e => [Log ERROR (error_text message e)]
                           end) = charts out).
    rewrite charts_app. destruct r; simpl; now rewrite app_nil_r.
  - destruct (process_message_rejected message rolling_window window_size st E)
      as (out & -> & Hlog & _).
    now apply charts_of_logs.
Qed.

(** The comprehension of line 128, closed form. *)
Lemma bar_colors_ok threshold temps :
  Forall (fun v => numeric_value v <> None) temps ->
  bar_colors threshold temps = Ok (map (bar_color threshold) temps).
Proof.
  induction 1 as [|v temps Hv _ IH]; [reflexivity|].
  simpl. rewrite IH. unfold bar_color, is_high, ge_float.
  destruct (numeric_value v); [reflexivity|contradiction].
Qed.

Lemma bar_colors_raise threshold temps :
  Exists unordered temps -> bar_colors threshold temps = Raise TypeError.
Proof.
  unfold unordered.
  induction temps as [|v temps IH]; intros H; [now apply Exists_nil in H|].
  simpl. unfold ge_float at 1.
  destruct (numeric_value v) eqn:E; [|reflexivity].
  apply Exists_cons in H as [H|H]; [congruence|].
  now rewrite (IH H).
Qed.

Lemma bar_colors_inv threshold temps colors :
  bar_colors threshold temps = Ok colors ->
  colors = map (bar_color threshold) temps
  /\ Forall (fun v => numeric_value v <> None) temps.
Proof.
  revert colors. induction temps as [|v temps IH]; intros colors H; simpl in H.
  - injection H as <-. now split.
  - unfold ge_float in H.
    destruct (numeric_value v) as [x|] eqn:E; [|discriminate].
    destruct (bar_colors threshold temps) as [cs|e]; [|discriminate].
    destruct (IH cs eq_refl) as [-> Hall]. injection H as <-.
    split; [|constructor; [congruence|exact Hall]].
    simpl. unfold bar_color at 2, is_high, ge_float. now rewrite E.
Qed.

(** A chart drawn while a message is handled, traced to its cause. *)
Lemma process_message_chart_inv message rolling_window window_size st
    x height colors :
  In (Bar_chart x height colors)
     (output_of (process_message message rolling_window window_size st)) ->
  exists timestamp temperature threshold,
    reading_of message = Some (timestamp, temperature)
    /\ SMOKER_HIGH_TEMP_THRESHOLD_F = Ok threshold
    /\ x = timestamps (after_reading timestamp temperature st)
    /\ height = temperatures (after_reading timestamp temperature st)
    /\ colors = map (bar_color threshold) height.
Proof.
  intros Hin.
  assert (Hin' : In (Bar_chart x height colors)
                    (charts (output_of (process_message message
                                          rolling_window window_size st))))
    by (apply In_charts; now split).
  rewrite process_message_charts in Hin'.
  destruct (reading_of message) as [[ts temp]|]; [|destruct Hin'].
  rewrite accepted_body_charts in Hin'.
  destruct (result_of (record_reading ts temp st)); [|destruct Hin'].
  unfold chart_due in Hin'.
  destruct SMOKER_HIGH_TEMP_THRESHOLD_F as [thr|e]; [|destruct Hin'].
  destruct (bar_colors thr _) as [cs|e] eqn:Hcs; [|destruct Hin'].
  destruct (pyplot _ _ cs); [destruct Hin'|].
  destruct Hin' as [Heq|[]]. injection Heq as <- <- <-.
  apply bar_colors_inv in Hcs as [-> _].
  now exists ts, temp, thr.
Qed.

Lemma poll_chart_inv messages : forall rolling_window window_size st
    x height colors,
  In (Bar_chart x height colors)
     (output_of (poll messages rolling_window window_size st)) ->
  exists prefix message suffix timestamp temperature threshold,
    messages = prefix ++ message :: suffix
    /\ reading_of message = Some (timestamp, temperature)
    /\ SMOKER_HIGH_TEMP_THRESHOLD_F = Ok threshold
    /\ let st1 := after_reading timestamp temperature
                    (state_of (poll prefix rolling_window window_size st)) in
       x = timestamps st1 /\ height = temperatures st1
       /\ colors = map (bar_color threshold) height.
Proof.
  induction messages as [|m ms IH]; intros rw ws st x h cs Hin.
  - destruct Hin.
  - rewrite poll_cons in Hin. unfold output_of at 1 in Hin. simpl in Hin.
    destruct Hin as [Hin|Hin]; [discriminate|].
    apply in_app_or in Hin as [Hin|Hin].
    + apply process_message_chart_inv in Hin
        as (ts & temp & thr & E & Hthr & Hx & Hh & Hc).
      exists [], m, ms, ts, temp, thr. repeat split; assumption.
    + apply IH in Hin
        as (prefix & message & suffix & ts & temp & thr & -> & E & Hthr & H).
      exists (m :: prefix), message, suffix, ts, temp, thr.
      split; [reflexivity|]. split; [exact E|]. split; [exact Hthr|].
      rewrite poll_cons. unfold state_of at 1. simpl. exact H.
Qed.

Lemma history_after_prefix prefix message timestamp temperature
    rolling_window window_size :
  reading_of message = Some (timestamp, temperature) ->
  let st1 := after_reading timestamp temperature
               (state_of (poll prefix rolling_window window_size
                            initial_state)) in
  timestamps st1 = map fst (readings (prefix ++ [message]))
  /\ temperatures st1 = map snd (readings (prefix ++ [message]))
  /\ total_messages st1 = Z.of_nat (length (readings (prefix ++ [message])))
  /\ high_temp_count st1
     = high_temp_count (fold_left accumulate (readings (prefix ++ [message]))
                          initial_state).
Proof.
  intros E st1.
  pose proof (accumulated_after_prefix prefix message timestamp temperature
                rolling_window window_size initial_state E) as H.
  fold st1 in H. unfold accumulated in H.
  injection H as Hts Htemp Htot _ Hcount.
  destruct (fold_accumulate_history (readings (prefix ++ [message]))
              initial_state) as (Ets & Etemp & Etot).
  rewrite Ets in Hts. rewrite Etemp in Htemp. rewrite Etot in Htot.
  simpl in Hts, Htemp, Htot. now repeat split.
Qed.

(** X1.  Every chart drawn during a run from the state the module is
    loaded in shows the whole history so far, not a window of it: its bars
    are, in order of arrival, all the readings accepted among the messages
    handled up to then, one colour per bar, red for a temperature at or
    above the configured threshold and blue otherwise. *)
Theorem chart_shows_the_whole_history messages rolling_window window_size
    x height colors :
  In (Bar_chart x height colors)
     (output_of (poll messages rolling_window window_size initial_state)) ->
  exists prefix suffix threshold,
    messages = prefix ++ suffix
    /\ SMOKER_HIGH_TEMP_THRESHOLD_F = Ok threshold
    /\ x = map fst (readings prefix)
    /\ height = map snd (readings prefix)
    /\ colors = map (bar_color threshold) height
    /\ length x = length height
    /\ length colors = length height
    /\ height <> [].
Proof.
  intros Hin.
  apply poll_chart_inv in Hin
    as (prefix & m & suffix & ts & temp & thr & -> & E & Hthr & Hx & Hh & Hc).
  destruct (history_after_prefix prefix m ts temp rolling_window window_size E)
    as (Hts & Htemp & _).
  rewrite Hts in Hx. rewrite Htemp in Hh.
  exists (prefix ++ [m]), suffix, thr.
  split; [now rewrite <- app_assoc|]. split; [exact Hthr|].
  split; [exact Hx|]. split; [exact Hh|]. split; [exact Hc|].
  split; [now rewrite Hx, Hh, !length_map|].
  split; [now rewrite Hc, length_map|].
  rewrite Hh, readings_app, map_app. unfold readings at 2. simpl.
  rewrite E. simpl. intros Hnil. now apply app_eq_nil in Hnil as [_ ?].
Qed.

Lemma red_bars_of_colors threshold temps :
  red_bars (map (bar_color threshold) temps)
  = length (high_temperatures threshold temps).
Proof.
  unfold red_bars, high_temperatures.
  induction temps as [|v temps IH]; [reflexivity|].
  cbn [map List.filter]. unfold bar_color at 1.
  destruct (is_high threshold v).
  - change (String.eqb "red" "red") with true. cbn [length]. now f_equal.
  - change (String.eqb "red" "blue") with false. exact IH.
Qed.

(** X2.  The chart and the counter agree.  With the threshold configured
    and temperatures that are floats or integers that convert to a float,
    when handling a message draws the chart, the number of red bars is the
    [high_temp_count] the call leaves. *)
Theorem red_bars_match_high_temp_count threshold prefix message
    rolling_window window_size x height colors :
  SMOKER_HIGH_TEMP_THRESHOLD_F = Ok threshold ->
  Forall has_float_value (map snd (readings (prefix ++ [message]))) ->
  let st := state_of (poll prefix rolling_window window_size initial_state) in
  let call := process_message message rolling_window window_size st in
  In (Bar_chart x height colors) (output_of call) ->
  Z.of_nat (red_bars colors) = high_temp_count (state_of call)
  /\ height = temperatures (state_of call).
Proof.
  intros Hthr Hall st call Hin. subst call.
  pose proof (process_message_accumulated message rolling_window window_size
                st) as Hacc.
  apply process_message_chart_inv in Hin
    as (ts & temp & thr & E & Hthr' & Hx & Hh & Hc).
  rewrite Hthr in Hthr'. injection Hthr' as <-.
  rewrite E in Hacc. unfold accumulate in Hacc. simpl in Hacc.
  unfold accumulated in Hacc. injection Hacc as _ Htemp _ _ Hcount.
  rewrite Hcount, Htemp. split; [|exact Hh].
  subst st.
  destruct (history_after_prefix prefix message ts temp rolling_window
              window_size E) as (_ & Htemps & _ & ->).
  destruct (fold_accumulate_high threshold (readings (prefix ++ [message]))
              Hthr Hall initial_state) as [-> _].
  rewrite Hc, Hh, Htemps, red_bars_of_colors. simpl. reflexivity.
Qed.

(** ** When the chart cannot be drawn *)

Lemma process_message_blocked message rolling_window window_size st :
  (forall timestamp temperature,
      chart_due (after_reading timestamp temperature st) = []) ->
  charts (output_of (process_message message rolling_window window_size st))
  = []
  /\ reports (output_of (process_message message rolling_window window_size
                           st)) = [].
Proof.
  intros Hblocked.
  rewrite process_message_charts, process_message_reports.
  destruct (reading_of message) as [[ts temp]|]; [|now split].
  rewrite accepted_body_charts, accepted_body_reports.
  destruct (result_of (record_reading ts temp st)); [|now split].
  split; [apply Hblocked|].
  destruct (result_of (update_chart (after_reading ts temp st))) as [u|e] eqn:E;
    [|reflexivity].
  destruct (update_chart_charts (after_reading ts temp st)) as [_ H].
  now destruct (H u E (Hblocked ts temp)).
Qed.

Lemma process_message_temperatures message rolling_window window_size st :
  temperatures (state_of (process_message message rolling_window window_size
                            st))
  = temperatures st
    ++ match reading_of message with
       | Some (_, temperature) => [temperature]
       | None => []
       end.
Proof.
  pose proof (process_message_accumulated message rolling_window window_size
                st) as H.
  unfold accumulated in H. injection H as _ -> _ _ _.
  destruct (reading_of message) as [[ts temp]|]; [|now rewrite app_nil_r].
  unfold accumulate. simpl.
  now destruct (after_reading_history ts temp st) as (_ & -> & _).
Qed.

Lemma chart_due_unordered st :
  Exists unordered (temperatures st) -> chart_due st = [].
Proof.
  intros H. unfold chart_due.
  destruct SMOKER_HIGH_TEMP_THRESHOLD_F as [thr|e]; [|reflexivity].
  now rewrite (bar_colors_raise thr _ H).
Qed.

Lemma poll_blocked (P : state -> Prop) :
  (forall st timestamp temperature,
      P st -> chart_due (after_reading timestamp temperature st) = []) ->
  (forall st message rolling_window window_size,
      P st ->
      P (state_of (process_message message rolling_window window_size st))) ->
  forall messages rolling_window window_size st,
    P st ->
    charts (output_of (poll messages rolling_window window_size st)) = []
    /\ reports (output_of (poll messages rolling_window window_size st)) = []
    /\ P (state_of (poll messages rolling_window window_size st)).
Proof.
  intros Hdue Hstep.
  induction messages as [|m ms IH]; intros rw ws st HP; [now repeat split|].
  rewrite poll_cons.
  destruct (process_message_blocked m rw ws st
              (fun ts temp => Hdue st ts temp HP)) as [Hc Hr].
  destruct (IH rw ws _ (Hstep st m rw ws HP)) as (Hc' & Hr' & HP').
  unfold output_of at 1 3, state_of at 1.
  cbn [fst snd].
  split; [|split; [|exact HP']].
  - change (charts (output_of (process_message m rw ws st)
                    ++ output_of (poll ms rw ws
                                    (state_of (process_message m rw ws st))))
            = []).
    now rewrite charts_app, Hc, Hc'.
  - change (reports (output_of (process_message m rw ws st)
                     ++ output_of (poll ms rw ws
                                     (state_of (process_message m rw ws st))))
            = []).
    now rewrite reports_app, Hr, Hr'.
Qed.

(** X3.  One reading whose temperature does not order against a float
    (a string, a list, an object) ends the charts and the analytics for the
    rest of the run: it stays in [temperatures], so the comprehension of
    line 128 raises at every later redraw and the report check is never
    reached; the messages are still recorded and counted. *)
Theorem unordered_temperature_stops_charts_and_reports
    messages rolling_window window_size st :
  Exists unordered (temperatures st) ->
  let run := poll messages rolling_window window_size st in
  charts (output_of run) = []
  /\ reports (output_of run) = []
  /\ Exists unordered (temperatures (state_of run))
  /\ total_messages (state_of run)
     = total_messages st + Z.of_nat (length (readings messages)).
Proof.
  intros Hbad run. subst run.
  destruct (poll_blocked (fun s => Exists unordered (temperatures s)))
    with (messages := messages) (rolling_window := rolling_window)
         (window_size := window_size) (st := st) as (Hc & Hr & HP).
  - intros s ts temp Hs. apply chart_due_unordered.
    destruct (after_reading_history ts temp s) as (_ & -> & _).
    apply Exists_app. now left.
  - intros s m rw ws Hs. rewrite process_message_temperatures.
    apply Exists_app. now left.
  - exact Hbad.
  - do 3 (split; [assumption|]).
    pose proof (poll_accumulated messages rolling_window window_size st) as H.
    unfold accumulated in H. injection H as _ _ -> _ _.
    now destruct (fold_accumulate_history (readings messages) st)
      as (_ & _ & ->).
Qed.

(** X4.  With a threshold setting that does not convert to a float, every
    accepted reading is still recorded and counted in [total_messages], but
    [get_high_temp_threshold] raises at line 181 of each call: nothing is
    ever counted as high, no chart is drawn and no analytics block is
    printed. *)
Theorem invalid_threshold_setting e messages rolling_window window_size st :
  SMOKER_HIGH_TEMP_THRESHOLD_F = Raise e ->
  let run := poll messages rolling_window window_size st in
  charts (output_of run) = []
  /\ reports (output_of run) = []
  /\ high_temp_count (state_of run) = high_temp_count st
  /\ high_temps_sum (state_of run) = high_temps_sum st
  /\ timestamps (state_of run) = timestamps st ++ map fst (readings messages)
  /\ temperatures (state_of run)
     = temperatures st ++ map snd (readings messages)
  /\ total_messages (state_of run)
     = total_messages st + Z.of_nat (length (readings messages)).
Proof.
  intros Hthr run. subst run.
  destruct (poll_blocked (fun _ => True))
    with (messages := messages) (rolling_window := rolling_window)
         (window_size := window_size) (st := st) as (Hc & Hr & _);
    try easy.
  { intros s ts temp _. unfold chart_due. now rewrite Hthr. }
  do 2 (split; [assumption|]).
  pose proof (poll_accumulated messages rolling_window window_size st) as H.
  unfold accumulated in H. injection H as -> -> -> -> ->.
  destruct (fold_accumulate_history (readings messages) st) as (-> & -> & ->).
  assert (Hkeep : forall rs s,
             high_temp_count (fold_left accumulate rs s) = high_temp_count s
             /\ high_temps_sum (fold_left accumulate rs s) = high_temps_sum s).
  { induction rs as [|[ts temp] rs IH]; intros s; [now split|].
    simpl. destruct (IH (accumulate s (ts, temp))) as [-> ->].
    unfold accumulate, after_reading. now rewrite Hthr. }
  destruct (Hkeep (readings messages) st) as [-> ->]. now repeat split.
Qed.

(** ** The loop *)

Lemma received_app out1 out2 :
  received (out1 ++ out2) = received out1 ++ received out2.
Proof. unfold received. apply omap_app. Qed.

Lemma record_reading_received timestamp temperature st :
  received (output_of (record_reading timestamp temperature st)) = [].
Proof.
  run_M. simpl.
  destruct SMOKER_HIGH_TEMP_THRESHOLD_F as [thr|e]; simpl; [|reflexivity].
  destruct (ge_float temperature thr) as [[|]|e]; simpl; try reflexivity.
  now destruct (float_add (high_temps_sum st) temperature).
Qed.

Lemma update_chart_received st :
  received (output_of (update_chart st)) = [].
Proof.
  rewrite update_chart_eq.
  destruct SMOKER_HIGH_TEMP_THRESHOLD_F as [thr|e]; [|reflexivity].
  destruct (bar_colors thr (temperatures st)) as [cs|e]; [|reflexivity].
  now destruct (pyplot (timestamps st) (temperatures st) cs).
Qed.

Lemma periodic_analytics_report_received st :
  received (output_of (periodic_analytics_report st)) = [].
Proof.
  rewrite periodic_analytics_report_eq.
  destruct SMOKER_ROLLING_WINDOW_SIZE as [size|e]; [|reflexivity].
  destruct (float_ge_int _ _); [|reflexivity].
  now destruct (avg_high_temp st).
Qed.

Lemma bind_output {A B} (c : M A) (k : A -> M B) st :
  output_of (bind c k st)
  = output_of (c st)
    ++ match result_of (c st) with
       | Ok a => output_of (k a (state_of (c st)))
       | Raise _ => []
       end.
Proof.
  unfold bind, output_of, result_of, state_of.
  destruct (c st) as [[[a|e] st1] out1]; simpl; [|now rewrite app_nil_r].
  now destruct (k a st1) as [[r st2] out2].
Qed.

Lemma accepted_body_received timestamp temperature st :
  received (output_of (accepted_body timestamp temperature st)) = [].
Proof.
  unfold accepted_body. rewrite bind_output, received_app.
  rewrite record_reading_received.
  destruct (result_of (record_reading timestamp temperature st)) as [u|e];
    [|reflexivity].
  rewrite bind_output, received_app, update_chart_received.
  destruct (result_of (update_chart _)) as [u'|e]; [|reflexivity].
  now rewrite periodic_analytics_report_received.
Qed.

Lemma process_message_received message rolling_window window_size st :
  received (output_of (process_message message rolling_window window_size st))
  = [].
Proof.
  destruct (reading_of message) as [[ts temp]|] eqn:E.
  - destruct (process_message_accepted message rolling_window window_size st
                ts temp E) as (data & _ & ->).
    pose proof (accepted_body_received ts temp st) as H.
    destruct (accepted_body ts temp st) as [[r st'] out].
    unfold output_of in *. simpl in *.
    change (received (out ++ match r with
                             | Ok _ => []
                             | Raise e => [Log ERROR (error_text message e)]
                             end) = []).
    rewrite received_app, H. now destruct r.
  - unfold reading_of in E. run_M.
    destruct (json_loads message) as [data|e]; simpl.
    + destruct data; simpl in *; try reflexivity.
      destruct (is_None (default PyNone (d !! "timestamp"%string))
                || is_None (default PyNone (d !! "temperature"%string)));
        [reflexivity|discriminate].
    + now destruct e.
Qed.

(** X5.  No message stops the loop.  Whatever the decoder, the display and
    the conversions raise, every call of [process_message] returns, so the
    loop receives every message the consumer yields, in order, and returns
    the deque it was given; handling a list of messages is handling its
    first part and then, from the state reached, the rest. *)
Theorem every_message_is_handled before after rolling_window window_size st :
  let run := poll (before ++ after) rolling_window window_size st in
  let first := poll before rolling_window window_size st in
  let second := poll after rolling_window window_size (state_of first) in
  result_of run = Ok rolling_window
  /\ received (output_of run) = before ++ after
  /\ state_of run = state_of second
  /\ output_of run = output_of first ++ output_of second.
Proof.
  intros run first second.
  assert (Hrec : forall ms s,
             received (output_of (poll ms rolling_window window_size s)) = ms).
  { induction ms as [|m ms IH]; intros s; [reflexivity|].
    rewrite poll_cons. unfold output_of at 1. cbn [snd].
    change (received (Log DEBUG (Received_message m)
                      :: output_of (process_message m rolling_window
                                      window_size s)
                      ++ output_of (poll ms rolling_window window_size
                                      (state_of (process_message m
                                                   rolling_window window_size
                                                   s))))
            = m :: ms).
    change (m :: received (output_of (process_message m rolling_window
                                        window_size s)
                           ++ output_of (poll ms rolling_window window_size
                                           (state_of (process_message m
                                                        rolling_window
                                                        window_size s))))
            = m :: ms).
    now rewrite received_app, process_message_received, IH. }
  split; [apply poll_returns|]. split; [apply Hrec|].
  subst run first second. now rewrite poll_app.
Qed.

(** ** [main] *)




(** ** Invariants of the counters and of the clock *)

Lemma poll_cons_state message messages rolling_window window_size st :
  state_of (poll (message :: messages) rolling_window window_size st)
  = state_of (poll messages rolling_window window_size
                (state_of (process_message message rolling_window window_size
                             st))).
Proof. now rewrite poll_cons. Qed.

Lemma process_message_state_cases message rolling_window window_size st :
  let st' := state_of (process_message message rolling_window window_size st) in
  (reading_of message = None /\ st' = st)
  \/ exists timestamp temperature,
       reading_of message = Some (timestamp, temperature)
       /\ let s := after_reading timestamp temperature st in
          st' = s \/ st' = tick s \/ st' = window_restarted s.
Proof.
  intros st'. subst st'. rewrite process_message_state.
  destruct (reading_of message) as [[ts temp]|]; [right|now left].
  exists ts, temp. split; [reflexivity|]. intros s. subst s.
  rewrite accepted_body_state.
  destruct (result_of (record_reading ts temp st)); [|now left].
  destruct (result_of (update_chart _)); [|now left].
  rewrite periodic_analytics_report_eq.
  destruct SMOKER_ROLLING_WINDOW_SIZE as [size|e]; [|right; now left].
  destruct (float_ge_int _ _); [|right; now left].
  destruct (avg_high_temp _); right; [now right|now left].
Qed.

Lemma after_reading_counters timestamp temperature st :
  let s := after_reading timestamp temperature st in
  total_messages s = total_messages st + 1
  /\ window_messages s = window_messages st + 1
  /\ (high_temp_count s = high_temp_count st
      \/ high_temp_count s = high_temp_count st + 1).
Proof.
  unfold after_reading.
  destruct SMOKER_HIGH_TEMP_THRESHOLD_F as [thr|e]; simpl; [|auto].
  destruct (ge_float temperature thr) as [[|]|e]; simpl; auto.
  destruct (float_add (high_temps_sum st) temperature); simpl; auto.
Qed.

Lemma process_message_counters message rolling_window window_size st :
  counters_in_range st ->
  counters_in_range
    (state_of (process_message message rolling_window window_size st)).
Proof.
  intros Hst. unfold counters_in_range in *.
  destruct (process_message_state_cases message rolling_window window_size st)
    as [[Hnone ->]|(ts & temp & Hsome & H)]; [exact Hst|].
  destruct (after_reading_counters ts temp st) as (Ht & Hw & Hc).
  destruct H as [-> | [-> | ->]]; simpl; lia.
Qed.

Lemma process_message_clock message rolling_window window_size st :
  window_start_is_a_reading st ->
  let st' := state_of (process_message message rolling_window window_size st) in
  window_start_is_a_reading st'
  /\ (time_calls st <= time_calls st'
      <= time_calls st + 2 * length (readings [message]))%nat.
Proof.
  intros (k & Hk & Hw) st'. subst st'.
  unfold window_start_is_a_reading, readings. simpl.
  destruct (process_message_state_cases message rolling_window window_size st)
    as [[-> ->]|(ts & temp & Hsome & H)]; [|rewrite Hsome].
  - split; [now exists k|simpl; lia].
  - destruct (after_reading_clock ts temp st) as (Hc & Hs).
    destruct H as [-> | [-> | ->]]; simpl; rewrite ?Hc, ?Hs.
    + split; [now exists k|lia].
    + split; [exists k; split; [lia|assumption]|lia].
    + split; [exists (S (time_calls st)); split; [lia|reflexivity]|lia].
Qed.

Lemma poll_counters messages : forall rolling_window window_size st,
  counters_in_range st ->
  counters_in_range (state_of (poll messages rolling_window window_size st)).
Proof.
  induction messages as [|m ms IH]; intros rw ws st Hst; [exact Hst|].
  rewrite poll_cons_state. apply IH. now apply process_message_counters.
Qed.

Lemma initial_counters : counters_in_range initial_state.
Proof. unfold counters_in_range. simpl. lia. Qed.

Lemma readings_length messages :
  (length (readings messages) <= length messages)%nat.
Proof.
  induction messages as [|m ms IH]; [simpl; lia|].
  assert (E : readings (m :: ms) = readings [m] ++ readings ms)
    by apply (readings_app [m] ms).
  rewrite E, length_app. unfold readings at 1. simpl.
  destruct (reading_of m); simpl; lia.
Qed.

Lemma poll_total messages rolling_window window_size :
  total_messages (state_of (poll messages rolling_window window_size
                              initial_state))
  = Z.of_nat (length (readings messages)).
Proof.
  pose proof (poll_accumulated messages rolling_window window_size
                initial_state) as Hacc.
  unfold accumulated in Hacc. injection Hacc as _ _ -> _ _.
  now destruct (fold_accumulate_history (readings messages) initial_state)
    as (_ & _ & ->).
Qed.

(** X8.  At every point of a run from the state the module is loaded in,
    the readings counted as high and the readings of the current window
    are among the readings counted: [high_temp_count] and
    [window_messages] lie between 0 and [total_messages], which is at most
    the number of messages. *)
Theorem counters_stay_in_range messages rolling_window window_size :
  let st := state_of (poll messages rolling_window window_size initial_state) in
  0 <= high_temp_count st <= total_messages st
  /\ 0 <= window_messages st <= total_messages st
  /\ 0 <= total_messages st <= Z.of_nat (length messages).
Proof.
  intros st.
  destruct (poll_counters messages rolling_window window_size initial_state
              initial_counters) as [Hc Hw].
  fold st in Hc, Hw. split; [exact Hc|]. split; [exact Hw|].
  subst st. rewrite poll_total.
  pose proof (readings_length messages). lia.
Qed.

(** X9.  The clock is read only for accepted readings, once at the report
    check and once more when the window restarts: after a run from the
    state the module is loaded in, it has been read at most twice per
    accepted reading, and [window_start] is one of the readings it has
    given. *)
Theorem window_start_is_a_clock_reading messages rolling_window window_size :
  let st := state_of (poll messages rolling_window window_size initial_state) in
  (exists k, (k < time_calls st)%nat /\ window_start st = time_time k)
  /\ (1 <= time_calls st <= 1 + 2 * length (readings messages))%nat.
Proof.
  intros st.
  assert (H : forall ms s,
             window_start_is_a_reading s ->
             let s' := state_of (poll ms rolling_window window_size s) in
             window_start_is_a_reading s'
             /\ (time_calls s <= time_calls s'
                 <= time_calls s + 2 * length (readings ms))%nat).
  { induction ms as [|m ms IH]; intros s Hs s'; subst s'.
    - change (state_of (poll [] rolling_window window_size s)) with s.
      split; [exact Hs|simpl; lia].
    - rewrite poll_cons_state.
      destruct (process_message_clock m rolling_window window_size s Hs)
        as [Hs1 Hc1].
      destruct (IH _ Hs1) as [Hs2 Hc2].
      split; [exact Hs2|].
      assert (E : readings (m :: ms) = readings [m] ++ readings ms)
        by apply (readings_app [m] ms).
      rewrite E, length_app. lia. }
  assert (Hinit : window_start_is_a_reading initial_state)
    by (exists 0%nat; split; [simpl; lia|reflexivity]).
  destruct (H messages initial_state Hinit) as [Hw Hc].
  fold st in Hw, Hc. simpl in Hc. split; [exact Hw|lia].
Qed.

(** X10.  An analytics block is printed only by a call that has just
    redrawn the chart, and, in a run from the state the module is loaded
    in, the total it shows is the number of bars of that chart, the number
    of readings in the history. *)
Theorem report_total_is_the_number_of_bars prefix message
    rolling_window window_size total avg :
  let st := state_of (poll prefix rolling_window window_size initial_state) in
  let call := process_message message rolling_window window_size st in
  In (Analytics total avg) (output_of call) ->
  exists colors,
    In (Bar_chart (timestamps (state_of call)) (temperatures (state_of call))
                  colors)
       (output_of call)
    /\ total = Z.of_nat (length (timestamps (state_of call)))
    /\ total = Z.of_nat (length (readings (prefix ++ [message])))
    /\ length colors = length (temperatures (state_of call)).
Proof.
  intros st call Hin. subst call.
  assert (Hin' : In (Analytics total avg)
                    (reports (output_of (process_message message
                                           rolling_window window_size st))))
    by (apply In_reports; now split).
  apply process_message_report_inv in Hin
    as (ts & temp & size & E & _ & _ & Htot & _ & Hst).
  rewrite process_message_reports, E, accepted_body_reports in Hin'.
  destruct (result_of (record_reading ts temp st)) as [u|e] eqn:Hrec;
    [|destruct Hin'].
  destruct (result_of (update_chart (after_reading ts temp st))) as [u'|e]
    eqn:Hchart; [|destruct Hin'].
  clear Hin'.
  pose proof (process_message_charts message rolling_window window_size st)
    as Hcharts.
  rewrite E, accepted_body_charts, Hrec in Hcharts.
  unfold result_of in Hchart. rewrite update_chart_eq in Hchart.
  unfold chart_due in Hcharts.
  destruct SMOKER_HIGH_TEMP_THRESHOLD_F as [thr|e]; [|discriminate].
  destruct (bar_colors thr _) as [cs|e] eqn:Hcs; [|discriminate].
  destruct (pyplot _ _ cs); [discriminate|].
  rewrite Hst.
  destruct (history_after_prefix prefix message ts temp rolling_window
              window_size E) as (Hts & Htemp & Htotal & _).
  fold st in Hts, Htemp, Htotal.
  exists cs. cbn [window_restarted timestamps temperatures].
  split.
  - assert (Hc : In (Bar_chart (timestamps (after_reading ts temp st))
                               (temperatures (after_reading ts temp st)) cs)
                    (charts (output_of (process_message message
                                          rolling_window window_size st))))
      by (rewrite Hcharts; now left).
    now apply In_charts in Hc as [Hc _].
  - apply bar_colors_inv in Hcs as [-> _].
    rewrite Htot, Htotal, Hts, !length_map. now repeat split.
Qed.


(** ** The average *)

Lemma digits2_pos_shift m p :
  digits2_pos (Pos.iter xO m p) = (digits2_pos m + p)%positive.
Proof.
  induction p as [|p IH] using Pos.peano_ind.
  - simpl. now rewrite Pos.add_1_r.
  - rewrite Pos.iter_succ. simpl. rewrite IH. lia.
Qed.

(** A positive integer below 2^53 converts to a finite, non-zero float. *)
Lemma float_of_Z_small n :
  0 < n < 2 ^ 53 ->
  exists m e, float_of_Z n = S754_finite false m e.
Proof.
  intros [Hpos Hlt]. destruct n as [|m|m]; try lia.
  unfold float_of_Z, binary_normalize, binary_round.
  pose proof (digits2_pos_bounds m) as [Hlo Hhi].
  set (d := Z.pos (digits2_pos m)) in *.
  assert (Hd : 1 <= d <= 53).
  { split; [subst d; lia|].
    destruct (Z_le_gt_dec d 53) as [H|H]; [exact H|].
    assert (2 ^ 53 <= 2 ^ (d - 1)) by (apply Z.pow_le_mono_r; lia). lia. }
  assert (Hfexp : fexp prec emax (d + 0) = d - 53).
  { unfold fexp, emin, prec, emax. lia. }
  rewrite Hfexp. unfold shl_align.
  destruct (d - 53 - 0) as [|q|q] eqn:Hq; try lia.
  - unfold binary_round_aux, shr_fexp.
    change (Zdigits2 (Z.pos m)) with d.
    assert (Hf0 : fexp prec emax (d + 0) - 0 = 0) by (rewrite Hfexp; lia).
    rewrite Hf0. simpl. change (Z.pos (digits2_pos m)) with d.
    rewrite Hf0. simpl. eauto.
  - unfold binary_round_aux, shr_fexp. cbn [fst snd].
    assert (Hdig : Zdigits2 (Z.pos (Pos.iter xO m q)) = 53).
    { simpl. rewrite digits2_pos_shift. fold d in Hq |- *.
      rewrite Pos2Z.inj_add. fold d. lia. }
    rewrite Hdig.
    assert (Hf0 : fexp prec emax (53 + (d - 53)) - (d - 53) = 0).
    { unfold fexp, emin, prec, emax. lia. }
    rewrite Hf0. simpl. rewrite digits2_pos_shift, Pos2Z.inj_add. fold d.
    replace (d + Z.pos q + (d - 53)) with (53 + (d - 53)) by lia.
    rewrite Hf0. simpl.
    destruct (d - 53 <=? emax - prec) eqn:Hle; [eauto|].
    apply Z.leb_gt in Hle. unfold emax, prec in Hle. lia.
Qed.

(** X11.  The average of line 191 never raises in a run of fewer than 2^53
    messages: the guard on [high_temp_count] excludes the division by zero,
    and the count converts to a float; the average is 0.0 while nothing has
    been counted as high, [high_temps_sum / high_temp_count] afterwards. *)
Theorem average_never_raises messages rolling_window window_size :
  Z.of_nat (length messages) < 2 ^ 53 ->
  let st := state_of (poll messages rolling_window window_size initial_state) in
  avg_high_temp st
  = Ok (if high_temp_count st =? 0 then fzero
        else fdiv (high_temps_sum st) (float_of_Z (high_temp_count st))).
Proof.
  intros Hlen st.
  destruct (poll_counters messages rolling_window window_size initial_state
              initial_counters) as [Hc _].
  fold st in Hc.
  assert (Htot : total_messages st <= Z.of_nat (length messages)).
  { subst st. rewrite poll_total. pose proof (readings_length messages). lia. }
  unfold avg_high_temp, float_truediv_int, int_to_float.
  destruct (high_temp_count st =? 0) eqn:Hz; [reflexivity|].
  apply Z.eqb_neq in Hz.
  destruct (float_of_Z_small (high_temp_count st)) as (m & e & ->);
    [lia|reflexivity].
Qed.

(** ** How a rejected message is logged *)

(** X12.  Each kind of rejected message leaves the state as it was and is
    logged in its own way after the raw message: text that is not JSON as a
    decoding error; JSON that is not an object (a list, a number, a string,
    [null]) as a processing error, the [AttributeError] of [data.get]; an
    object without a temperature or a timestamp as an invalid message, after
    the record of the decoded object. *)
Theorem rejected_messages_are_logged_by_kind
    message rolling_window window_size st :
  (json_loads message = Raise JSONDecodeError ->
   process_message message rolling_window window_size st
   = (Ok rolling_window, st,
      [Log DEBUG (Raw_message message);
       Log ERROR (JSON_decoding_error message)]))
  /\ (forall data,
        json_loads message = Ok data ->
        (forall d, data <> PyDict d) ->
        process_message message rolling_window window_size st
        = (Ok rolling_window, st,
           [Log DEBUG (Raw_message message);
            Log ERROR (Error_processing_message message AttributeError)]))
  /\ (forall d,
        json_loads message = Ok (PyDict d) ->
        field_missing d "temperature" \/ field_missing d "timestamp" ->
        process_message message rolling_window window_size st
        = (Ok rolling_window, st,
           [Log DEBUG (Raw_message message);
            Log INFO (Processed_JSON_message (PyDict d));
            Log ERROR (Invalid_message message)])).
Proof.
  split; [|split].
  - intros H. run_M. rewrite H. reflexivity.
  - intros data H Hnot. run_M. rewrite H.
    destruct data; try reflexivity. now destruct (Hnot d).
  - intros d H Hmiss. run_M. rewrite H. simpl.
    assert (E : is_None (default PyNone (d !! "timestamp"%string))
                || is_None (default PyNone (d !! "temperature"%string))
                = true).
    { destruct Hmiss as [[Hm|Hm]|[Hm|Hm]]; rewrite Hm; simpl;
        now rewrite ?orb_true_r. }
    now rewrite E.
Qed.

End Consumer.

Import Scenario.

(** ** The elapsed time and the totals *)

Lemma fold_accumulate_count_le threshold rs : forall st,
  high_temp_count st <= high_temp_count (fold_left (accumulate threshold) rs st).
Proof.
  induction rs as [|[ts temp] rs IH]; intros st; simpl; [lia|].
  etransitivity; [|apply IH].
  unfold accumulate, after_reading. simpl.
  destruct threshold as [thr|e]; simpl; [|lia].
  destruct (ge_float temp thr) as [[|]|e]; simpl; try lia.
  destruct (float_add (high_temps_sum st) temp); simpl; lia.
Qed.

(** C5, as the code has it.  The elapsed time never resets
    [high_temp_count] or [high_temps_sum]: the check of lines 189-198 leaves
    the history and the three counters as they are, and when the elapsed
    time has reached the window size it restarts the window only
    ([window_start] becomes the next reading of the clock, [window_messages]
    zero).  So, whatever two clocks read and whatever the window sizes, the
    same messages handled from the same state leave the same
    [high_temp_count], [high_temps_sum], [total_messages] and history, and
    handling messages never lowers [high_temp_count]. *)
Theorem high_temperature_totals_are_never_reset
    json_loads pyplot threshold clock1 clock2 size1 size2
    messages rolling_window window_size st :
  let run1 := poll json_loads clock1 pyplot threshold size1 messages
                rolling_window window_size st in
  let run2 := poll json_loads clock2 pyplot threshold size2 messages
                rolling_window window_size st in
  high_temp_count (state_of run1) = high_temp_count (state_of run2)
  /\ high_temps_sum (state_of run1) = high_temps_sum (state_of run2)
  /\ total_messages (state_of run1) = total_messages (state_of run2)
  /\ timestamps (state_of run1) = timestamps (state_of run2)
  /\ temperatures (state_of run1) = temperatures (state_of run2)
  /\ high_temp_count st <= high_temp_count (state_of run1)
  /\ accumulated (state_of (periodic_analytics_report clock1 size1 st))
     = accumulated st
  /\ (forall size avg,
        size1 = Ok size ->
        float_ge_int (elapsed clock1 st) size = true ->
        avg_high_temp st = Ok avg ->
        periodic_analytics_report clock1 size1 st
        = (Ok tt, window_restarted clock1 st,
           [Log INFO (Rolling_window_size size);
            Analytics (total_messages st) avg])).
Proof.
  intros run1 run2.
  pose proof (poll_accumulated json_loads clock1 pyplot threshold size1
                messages rolling_window window_size st) as H1.
  pose proof (poll_accumulated json_loads clock2 pyplot threshold size2
                messages rolling_window window_size st) as H2.
  fold run1 in H1. fold run2 in H2.
  pose proof (fold_accumulate_count_le threshold
                (readings json_loads messages) st) as Hle.
  unfold accumulated in H1, H2.
  injection H1 as Hts1 Htemp1 Htot1 Hsum1 Hcount1.
  injection H2 as Hts2 Htemp2 Htot2 Hsum2 Hcount2.
  do 6 (split; [congruence|]).
  split; [apply periodic_analytics_report_accumulated|].
  intros size avg Hsize Hge Havg.
  now rewrite periodic_analytics_report_eq, Hsize, Hge, Havg.
Qed.

(** ** Runs on message texts *)

Example messages_decode :
  reading_of Json.loads message_80 = Some (PyStr "t1", PyInt 80)
  /\ reading_of Json.loads message_hot = Some (PyStr "t1", PyStr "hot")
  /\ reading_of Json.loads message_no_temperature = None
  /\ Json.loads not_json = Raise JSONDecodeError
  /\ reading_of Json.loads message_huge = Some (PyStr "t1", PyInt (10 ^ 400)).
Proof. vm_compute. repeat split; reflexivity. Qed.

Lemma accumulated_counters st1 st2 :
  accumulated st1 = accumulated st2 ->
  total_messages st1 = total_messages st2
  /\ high_temps_sum st1 = high_temps_sum st2
  /\ high_temp_count st1 = high_temp_count st2.
Proof. unfold accumulated. intros H. now injection H. Qed.

(** C9.  The three messages with temperatures 80, 95 and 100, handled from
    the state the module is loaded in with the threshold at 90.0, whatever
    the clock reads and whether or not the display draws: [total_messages]
    is 3, [high_temp_count] is 2, [high_temps_sum] is 195.0, the average
    of line 191 is 97.5, and an analytics block that shows three messages
    shows 97.5; with a clock that advances ten seconds per reading and a
    window of five seconds, a block is printed after each message, the
    last one showing 3 and 97.5. *)
Theorem three_messages_scenario time_time pyplot window_setting
    rolling_window window_size :
  let run := poll Json.loads time_time pyplot threshold window_setting
               [message_80; message_95; message_100]
               rolling_window window_size (initial_state time_time) in
  total_messages (state_of run) = 3
  /\ high_temp_count (state_of run) = 2
  /\ high_temps_sum (state_of run) = float_of_Z 195
  /\ avg_high_temp (state_of run) = Ok float_97_5
  /\ (forall avg, In (Analytics 3 avg) (output_of run) -> avg = float_97_5)
  /\ reports (output_of (poll Json.loads ticking_clock draws threshold size
                           [message_80; message_95; message_100]
                           rolling_window window_size
                           (initial_state ticking_clock)))
     = [Analytics 1 fzero; Analytics 2 (float_of_Z 95);
        Analytics 3 float_97_5].
Proof.
  intros run.
  pose proof (poll_accumulated Json.loads time_time pyplot threshold
                window_setting [message_80; message_95; message_100]
                rolling_window window_size (initial_state time_time)) as H.
  fold run in H.
  assert (Hfold :
            accumulated
              (fold_left (accumulate threshold)
                 (readings Json.loads [message_80; message_95; message_100])
                 (initial_state time_time))
            = ([PyStr "t1"; PyStr "t2"; PyStr "t3"],
               [PyInt 80; PyInt 95; PyInt 100], 3, float_of_Z 195, 2))
    by (vm_compute; reflexivity).
  rewrite Hfold in H. clear Hfold. unfold accumulated in H.
  injection H as _ _ Htot Hsum Hcount.
  split; [exact Htot|]. split; [exact Hcount|]. split; [exact Hsum|].
  split; [|split].
  - unfold avg_high_temp. rewrite Hcount, Hsum. reflexivity.
  - intros avg Hin. subst run.
    apply poll_report_inv in Hin
      as (prefix & message & suffix & ts & temp & Hsplit & E & Htot' & Havg).
    pose proof (accumulated_after_prefix Json.loads time_time pyplot threshold
                  window_setting prefix message ts temp rolling_window
                  window_size (initial_state time_time) E) as Hacc.
    apply accumulated_counters in Hacc as (Ht & Hs & Hc).
    unfold avg_high_temp in Havg. rewrite Hs, Hc in Havg. rewrite Ht in Htot'.
    clear Ht Hs Hc E.
    destruct prefix as [|a [|b [|c prefix]]]; simpl in Hsplit.
    + injection Hsplit as <- _. vm_compute in Htot'. discriminate.
    + injection Hsplit as <- <- _. vm_compute in Htot'. discriminate.
    + injection Hsplit as <- <- <- _. vm_compute in Havg.
      injection Havg as <-. reflexivity.
    + injection Hsplit as _ _ _ Hnil. now destruct prefix.
  - clear. vm_compute. reflexivity.
Qed.

(** ** Where the code departs from the specification *)

(** C2 as stated fails: an integer temperature too large for a float is an
    accepted reading at or above the threshold, yet the addition of line 182
    raises before the count is incremented. *)
Lemma huge_integer_temperature_is_not_counted :
  readings Json.loads [message_huge] = [(PyStr "t1", PyInt (10 ^ 400))]
  /\ ge_float (PyInt (10 ^ 400)) (float_of_Z 90) = Ok true
  /\ float_add fzero (PyInt (10 ^ 400)) = Raise OverflowError
  /\ expected_count (float_of_Z 90) [PyInt (10 ^ 400)] = 1
  /\ accumulated
       (state_of (poll Json.loads clock draws threshold size [message_huge]
                    a_deque 5 (initial_state clock)))
     = ([PyStr "t1"], [PyInt (10 ^ 400)], 1, fzero, 0)
  /\ high_temp_count
       (state_of (poll Json.loads clock draws threshold size [message_huge]
                    a_deque 5 (initial_state clock)))
     <> expected_count (float_of_Z 90)
          (map snd (readings Json.loads [message_huge])).
Proof. vm_compute. repeat split; try reflexivity. discriminate. Qed.

(** C5 as stated fails: the elapsed time exceeds the window size, the block
    is printed and the window restarts, and the count and the sum keep the
    reading just counted. *)
Lemma totals_survive_an_elapsed_window :
  xnum_compare (xnum_of_float (elapsed clock (initial_state clock)))
               (XDyadic 5 0) = Some Gt
  /\ process_message Json.loads clock draws threshold size message_95
       a_deque 5 (initial_state clock)
     = (Ok a_deque,
        {| timestamps := [PyStr "t2"]; temperatures := [PyInt 95];
           total_messages := 1; high_temps_sum := float_of_Z 95;
           high_temp_count := 1; window_messages := 0;
           window_start := float_of_Z 100; time_calls := 3 |},
        [Log DEBUG (Raw_message message_95);
         Log INFO (Processed_JSON_message
                     (PyDict (<["timestamp"%string := PyStr "t2"]>
                                (<["temperature"%string := PyInt 95]> ∅))));
         Log INFO (High_temp_threshold (float_of_Z 90));
         Log INFO (High_temp_threshold (float_of_Z 90));
         Bar_chart [PyStr "t2"] [PyInt 95] ["red"%string];
         Log INFO (Rolling_window_size 5);
         Analytics 1 (float_of_Z 95)])
  /\ high_temp_count
       (state_of (process_message Json.loads clock draws threshold size
                    message_95 a_deque 5 (initial_state clock))) <> 0
  /\ high_temps_sum
       (state_of (process_message Json.loads clock draws threshold size
                    message_95 a_deque 5 (initial_state clock))) <> fzero.
Proof. vm_compute. repeat split; try reflexivity; discriminate. Qed.

(** C6 as stated fails: after a run over one accepted reading the rolling
    window is empty, not the window holding its temperature. *)
Lemma rolling_window_stays_empty :
  temperatures
    (state_of (main Json.loads clock draws threshold size topic group_id
                 [message_80] Exhausted (initial_state clock)))
  = [PyInt 80]
  /\ result_of (main Json.loads clock draws threshold size topic group_id
                  [message_80] Exhausted (initial_state clock))
     = Ok {| maxlen := 5; items := [] |}
  /\ claimed_rolling_window 5 [PyInt 80]
     = {| maxlen := 5; items := [PyInt 80] |}
  /\ result_of (main Json.loads clock draws threshold size topic group_id
                  [message_80] Exhausted (initial_state clock))
     <> Ok (claimed_rolling_window 5 [PyInt 80]).
Proof. vm_compute. repeat split; try reflexivity. discriminate. Qed.

(** C7 as stated fails: the window has elapsed twenty times over, and a
    message that is rejected prints nothing, alone or in a row; an accepted
    reading prints one block, not twenty. *)
Lemma no_report_without_a_reading :
  elapsed clock (initial_state clock) = float_of_Z 100
  /\ float_ge_int (elapsed clock (initial_state clock)) 5 = true
  /\ reports (output_of (process_message Json.loads clock draws threshold size
                           not_json a_deque 5 (initial_state clock))) = []
  /\ reports (output_of (poll Json.loads clock draws threshold size
                           [not_json; message_no_temperature; not_json]
                           a_deque 5 (initial_state clock))) = []
  /\ reports (output_of (process_message Json.loads clock draws threshold size
                           message_80 a_deque 5 (initial_state clock)))
     = [Analytics 1 fzero].
Proof. vm_compute. repeat split; reflexivity. Qed.

(** ** The theorems at concrete inputs *)

Lemma history_and_total_grow_together_witness :
  Forall (fun m => is_Some (reading_of Json.loads m))
         [message_80; message_95; message_100]
  /\ total_messages
       (state_of (poll Json.loads clock draws threshold size
                    [message_80; message_95; message_100] a_deque 5
                    (initial_state clock)))
     = Z.of_nat (length [message_80; message_95; message_100]).
Proof.
  assert (H : Forall (fun m => is_Some (reading_of Json.loads m))
                     [message_80; message_95; message_100]).
  { repeat constructor; vm_compute; eexists; reflexivity. }
  split; [exact H|].
  destruct (history_and_total_grow_together Json.loads clock draws threshold
              size topic group_id [message_80; message_95; message_100]
              a_deque 5 Exhausted)
    as (_ & _ & _ & _ & _ & Hvalid & _).
  now apply Hvalid.
Defined.

Lemma high_temperature_statistics_witness :
  threshold = Ok (float_of_Z 90)
  /\ Forall has_float_value
       (map snd (readings Json.loads [message_80; message_95; message_100]))
  /\ high_temp_count
       (state_of (poll Json.loads clock draws threshold size
                    [message_80; message_95; message_100] a_deque 5
                    (initial_state clock)))
     = expected_count (float_of_Z 90)
         (map snd (readings Json.loads [message_80; message_95; message_100])).
Proof.
  assert (H : Forall has_float_value
                (map snd (readings Json.loads
                            [message_80; message_95; message_100]))).
  { vm_compute. repeat constructor; eexists; reflexivity. }
  split; [reflexivity|]. split; [exact H|].
  apply (high_temperature_statistics Json.loads clock draws threshold size
           (float_of_Z 90) [message_80; message_95; message_100] a_deque 5
           eq_refl H).
Defined.

Lemma invalid_message_is_a_no_op_witness :
  (Json.loads not_json = Raise JSONDecodeError
   \/ lacks_field Json.loads not_json)
  /\ (Json.loads message_no_temperature = Raise JSONDecodeError
      \/ lacks_field Json.loads message_no_temperature)
  /\ (exists out,
         process_message Json.loads clock draws threshold size not_json
           a_deque 5 (initial_state clock)
         = (Ok a_deque, initial_state clock, out)
         /\ forallb is_log out = true
         /\ exists text, last out = Some (Log ERROR text))
  /\ (exists out,
         process_message Json.loads clock draws threshold size
           message_no_temperature a_deque 5 (initial_state clock)
         = (Ok a_deque, initial_state clock, out)
         /\ forallb is_log out = true
         /\ exists text, last out = Some (Log ERROR text)).
Proof.
  assert (H1 : Json.loads not_json = Raise JSONDecodeError
               \/ lacks_field Json.loads not_json)
    by (left; vm_compute; reflexivity).
  assert (H2 : Json.loads message_no_temperature = Raise JSONDecodeError
               \/ lacks_field Json.loads message_no_temperature).
  { right. exists (<["timestamp"%string := PyStr "t1"]> ∅).
    split; [vm_compute; reflexivity|]. left. left. vm_compute. reflexivity. }
  split; [exact H1|]. split; [exact H2|]. split.
  - apply (invalid_message_is_a_no_op Json.loads clock draws threshold size
             not_json H1).
  - apply (invalid_message_is_a_no_op Json.loads clock draws threshold size
             message_no_temperature H2).
Defined.

Lemma report_restarts_only_the_window_witness :
  In (Analytics 1 (float_of_Z 95))
     (output_of (process_message Json.loads clock draws threshold size
                   message_95 a_deque 5 (initial_state clock)))
  /\ exists timestamp temperature,
       reading_of Json.loads message_95 = Some (timestamp, temperature)
       /\ state_of (process_message Json.loads clock draws threshold size
                      message_95 a_deque 5 (initial_state clock))
          = window_restarted clock
              (after_reading threshold timestamp temperature
                 (initial_state clock)).
Proof.
  assert (H : In (Analytics 1 (float_of_Z 95))
                 (output_of (process_message Json.loads clock draws threshold
                               size message_95 a_deque 5
                               (initial_state clock)))).
  { vm_compute. do 6 right. left. reflexivity. }
  split; [exact H|].
  destruct (report_restarts_only_the_window Json.loads clock draws threshold
              size message_95 a_deque 5 (initial_state clock) 1
              (float_of_Z 95) H)
    as (ts & temp & sz & E & _ & _ & _ & Hst & _).
  exists ts, temp. split; [exact E|exact Hst].
Defined.

Lemma rolling_window_is_never_used_witness :
  result_of (main Json.loads clock draws threshold size topic group_id
               [message_80; message_95] Exhausted (initial_state clock))
  = Ok a_deque
  /\ items a_deque = [].
Proof.
  assert (H : result_of (main Json.loads clock draws threshold size topic
                           group_id [message_80; message_95] Exhausted
                           (initial_state clock)) = Ok a_deque)
    by (vm_compute; reflexivity).
  split; [exact H|].
  apply (rolling_window_is_never_used Json.loads clock draws threshold size
           topic group_id [message_80; message_95] Exhausted
           (initial_state clock)).
  exact H.
Defined.

Lemma report_only_while_handling_a_reading_witness :
  reading_of Json.loads message_95 = Some (PyStr "t2", PyInt 95)
  /\ float_ge_int
       (elapsed clock (after_reading threshold (PyStr "t2") (PyInt 95)
                         (initial_state clock))) 5 = true
  /\ reports (output_of (process_message Json.loads clock draws threshold size
                           message_95 a_deque 5 (initial_state clock)))
     = [Analytics (total_messages (initial_state clock) + 1) (float_of_Z 95)].
Proof.
  split; [vm_compute; reflexivity|]. split; [vm_compute; reflexivity|].
  apply (report_only_while_handling_a_reading Json.loads clock draws threshold
           size message_95 a_deque 5 (initial_state clock))
    with (timestamp := PyStr "t2") (temperature := PyInt 95) (size := 5);
    vm_compute; reflexivity.
Defined.

Lemma bar_colors_monotone_in_threshold_witness :
  fle (float_of_Z 90) (float_of_Z 96) = true
  /\ bar_colors (float_of_Z 90) [PyInt 80; PyInt 95; PyFloat S754_nan]
     = Ok ["blue"; "red"; "blue"]%string
  /\ exists colors2,
       bar_colors (float_of_Z 96) [PyInt 80; PyInt 95; PyFloat S754_nan]
       = Ok colors2
       /\ colors2 !! 0%nat = Some "blue"%string.
Proof.
  assert (H1 : fle (float_of_Z 90) (float_of_Z 96) = true)
    by (vm_compute; reflexivity).
  assert (H2 : bar_colors (float_of_Z 90)
                 [PyInt 80; PyInt 95; PyFloat S754_nan]
               = Ok ["blue"; "red"; "blue"]%string)
    by (vm_compute; reflexivity).
  split; [exact H1|]. split; [exact H2|].
  destruct (bar_colors_monotone_in_threshold
              [PyInt 80; PyInt 95; PyFloat S754_nan]
              (float_of_Z 90) (float_of_Z 96) _ H1 H2)
    as (colors2 & E & _ & _ & Hblue & _).
  exists colors2. split; [exact E|]. apply Hblue. reflexivity.
Defined.

Lemma three_messages_scenario_witness :
  In (Analytics 3 float_97_5)
     (output_of (poll Json.loads ticking_clock draws threshold size
                   [message_80; message_95; message_100] a_deque 5
                   (initial_state ticking_clock)))
  /\ avg_high_temp
       (state_of (poll Json.loads ticking_clock draws threshold size
                    [message_80; message_95; message_100] a_deque 5
                    (initial_state ticking_clock)))
     = Ok float_97_5.
Proof.
  split.
  - vm_compute. do 23 right. left. reflexivity.
  - apply (three_messages_scenario ticking_clock draws size a_deque 5).
Defined.

Lemma incomparable_temperature_is_half_recorded_witness :
  Json.loads message_hot
  = Ok (PyDict (<["timestamp"%string := PyStr "t1"]>
                  (<["temperature"%string := PyStr "hot"]> ∅)))
  /\ exists out e,
       process_message Json.loads clock draws threshold size message_hot
         a_deque 5 (initial_state clock)
       = (Ok a_deque,
          recorded (PyStr "t1") (PyStr "hot") (initial_state clock),
          out ++ [Log ERROR (error_text message_hot e)])
       /\ forallb is_log out = true
       /\ (forall t, threshold = Ok t -> e = TypeError).
Proof.
  assert (H : Json.loads message_hot
              = Ok (PyDict (<["timestamp"%string := PyStr "t1"]>
                              (<["temperature"%string := PyStr "hot"]> ∅))))
    by (vm_compute; reflexivity).
  split; [exact H|].
  apply (incomparable_temperature_is_half_recorded Json.loads clock draws
           threshold size message_hot _ (PyStr "t1") (PyStr "hot") a_deque 5
           (initial_state clock) H);
    try (vm_compute; reflexivity); discriminate.
Defined.

(** ** Further properties at concrete inputs *)

Ltac find_in_output :=
  vm_compute; repeat (first [left; reflexivity | right]).

Lemma chart_shows_the_whole_history_witness :
  In (Bar_chart [PyStr "t1"; PyStr "t2"] [PyInt 80; PyInt 95]
                ["blue"; "red"]%string)
     (output_of (poll Json.loads clock draws threshold size
                   [message_80; message_95; not_json] a_deque 5
                   (initial_state clock)))
  /\ exists prefix suffix t,
       [message_80; message_95; not_json] = prefix ++ suffix
       /\ threshold = Ok t
       /\ [PyStr "t1"; PyStr "t2"] = map fst (readings Json.loads prefix)
       /\ [PyInt 80; PyInt 95] = map snd (readings Json.loads prefix)
       /\ ["blue"; "red"]%string = map (bar_color t) [PyInt 80; PyInt 95]
       /\ length [PyStr "t1"; PyStr "t2"] = length [PyInt 80; PyInt 95]
       /\ length ["blue"; "red"]%string = length [PyInt 80; PyInt 95]
       /\ [PyInt 80; PyInt 95] <> [].
Proof.
  assert (H : In (Bar_chart [PyStr "t1"; PyStr "t2"] [PyInt 80; PyInt 95]
                            ["blue"; "red"]%string)
                 (output_of (poll Json.loads clock draws threshold size
                               [message_80; message_95; not_json] a_deque 5
                               (initial_state clock))))
    by find_in_output.
  split; [exact H|].
  exact (chart_shows_the_whole_history Json.loads clock draws threshold size
           [message_80; message_95; not_json] a_deque 5 _ _ _ H).
Defined.

Lemma red_bars_match_high_temp_count_witness :
  threshold = Ok (float_of_Z 90)
  /\ Forall has_float_value
       (map snd (readings Json.loads ([message_80] ++ [message_95])))
  /\ In (Bar_chart [PyStr "t1"; PyStr "t2"] [PyInt 80; PyInt 95]
                   ["blue"; "red"]%string)
        (output_of (process_message Json.loads clock draws threshold size
                      message_95 a_deque 5
                      (state_of (poll Json.loads clock draws threshold size
                                   [message_80] a_deque 5
                                   (initial_state clock)))))
  /\ Z.of_nat (red_bars ["blue"; "red"]%string)
     = high_temp_count
         (state_of (process_message Json.loads clock draws threshold size
                      message_95 a_deque 5
                      (state_of (poll Json.loads clock draws threshold size
                                   [message_80] a_deque 5
                                   (initial_state clock))))).
Proof.
  assert (H1 : Forall has_float_value
                 (map snd (readings Json.loads
                             ([message_80] ++ [message_95])))).
  { assert (E : map snd (readings Json.loads ([message_80] ++ [message_95]))
                = [PyInt 80; PyInt 95]) by (vm_compute; reflexivity).
    rewrite E. repeat constructor; eexists; reflexivity. }
  assert (H2 : In (Bar_chart [PyStr "t1"; PyStr "t2"] [PyInt 80; PyInt 95]
                             ["blue"; "red"]%string)
                  (output_of (process_message Json.loads clock draws threshold
                                size message_95 a_deque 5
                                (state_of (poll Json.loads clock draws
                                             threshold size [message_80]
                                             a_deque 5
                                             (initial_state clock))))))
    by find_in_output.
  split; [reflexivity|]. split; [exact H1|]. split; [exact H2|].
  exact (proj1 (red_bars_match_high_temp_count Json.loads clock draws
                  threshold size (float_of_Z 90) [message_80] message_95
                  a_deque 5 _ _ _ eq_refl H1 H2)).
Defined.

Lemma unordered_temperature_stops_charts_and_reports_witness :
  Exists unordered
    (temperatures (recorded (PyStr "t1") (PyStr "hot") (initial_state clock)))
  /\ charts (output_of (poll Json.loads clock draws threshold size
                          [message_95; message_100] a_deque 5
                          (recorded (PyStr "t1") (PyStr "hot")
                             (initial_state clock)))) = []
  /\ reports (output_of (poll Json.loads clock draws threshold size
                           [message_95; message_100] a_deque 5
                           (recorded (PyStr "t1") (PyStr "hot")
                              (initial_state clock)))) = [].
Proof.
  assert (H : Exists unordered
                (temperatures (recorded (PyStr "t1") (PyStr "hot")
                                 (initial_state clock))))
    by (apply Exists_cons_hd; reflexivity).
  split; [exact H|].
  destruct (unordered_temperature_stops_charts_and_reports Json.loads clock
              draws threshold size [message_95; message_100] a_deque 5
              (recorded (PyStr "t1") (PyStr "hot") (initial_state clock)) H)
    as (Hc & Hr & _).
  split; [exact Hc|exact Hr].
Defined.

Lemma invalid_threshold_setting_witness :
  (Raise ValueError : res float) = Raise ValueError
  /\ charts (output_of (poll Json.loads clock draws (Raise ValueError) size
                          [message_80; message_95] a_deque 5
                          (initial_state clock))) = []
  /\ high_temp_count
       (state_of (poll Json.loads clock draws (Raise ValueError) size
                    [message_80; message_95] a_deque 5
                    (initial_state clock)))
     = high_temp_count (initial_state clock).
Proof.
  split; [reflexivity|].
  destruct (invalid_threshold_setting Json.loads clock draws
              (Raise ValueError) size ValueError [message_80; message_95]
              a_deque 5 (initial_state clock) eq_refl)
    as (Hc & _ & Hcount & _).
  split; [exact Hc|exact Hcount].
Defined.


Lemma report_total_is_the_number_of_bars_witness :
  In (Analytics 1 (float_of_Z 95))
     (output_of (process_message Json.loads clock draws threshold size
                   message_95 a_deque 5
                   (state_of (poll Json.loads clock draws threshold size
                                [] a_deque 5 (initial_state clock)))))
  /\ 1 = Z.of_nat (length (readings Json.loads ([] ++ [message_95]))).
Proof.
  assert (H : In (Analytics 1 (float_of_Z 95))
                 (output_of (process_message Json.loads clock draws threshold
                               size message_95 a_deque 5
                               (state_of (poll Json.loads clock draws
                                            threshold size [] a_deque 5
                                            (initial_state clock))))))
    by find_in_output.
  split; [exact H|].
  destruct (report_total_is_the_number_of_bars Json.loads clock draws
              threshold size [] message_95 a_deque 5 1 (float_of_Z 95) H)
    as (cs & _ & _ & Htot & _).
  exact Htot.
Defined.

Lemma average_never_raises_witness :
  Z.of_nat (length [message_80; message_95; message_100]) < 2 ^ 53
  /\ avg_high_temp
       (state_of (poll Json.loads clock draws threshold size
                    [message_80; message_95; message_100] a_deque 5
                    (initial_state clock)))
     = Ok (if high_temp_count
                (state_of (poll Json.loads clock draws threshold size
                             [message_80; message_95; message_100] a_deque 5
                             (initial_state clock))) =? 0
           then fzero
           else fdiv (high_temps_sum
                        (state_of (poll Json.loads clock draws threshold size
                                     [message_80; message_95; message_100]
                                     a_deque 5 (initial_state clock))))
                     (float_of_Z
                        (high_temp_count
                           (state_of (poll Json.loads clock draws threshold
                                        size
                                        [message_80; message_95; message_100]
                                        a_deque 5 (initial_state clock)))))).
Proof.
  assert (H : Z.of_nat (length [message_80; message_95; message_100])
              < 2 ^ 53) by reflexivity.
  split; [exact H|].
  exact (average_never_raises Json.loads clock draws threshold size
           [message_80; message_95; message_100] a_deque 5 H).
Defined.
